(** * react-bot-detection: behavioural scoring, honeypot trap and
      submission-time merge, embedded from the TypeScript sources.

    Modelling conventions.
    - A JavaScript [number] that the program only ever uses as an integer
      (millisecond timestamps of [Date.now()], pointer coordinates, scores,
      counters) is a [Z].
    - The typing statistics [avgInterval] and [variance] are computed in
      binary64, as the program computes them, on the primitive floats; the
      deltas they are computed from are integers between 1 and 999, at most
      20 of them, so that facts about every such list are checked by
      evaluation.  [avgVariation] is a quotient of an integer sum by a
      length of at most 20 and is kept in [Q]: its comparison with 5 comes
      out in binary64 as it does in [Q].
    - A React [useRef] cell and a React [useState] cell are fields of an
      explicit state record; an event handler is a function from state to
      state.  A memoised callback reads the refs as they are when it runs
      and the state values of the render that created it
      ([UseBotDetection.closureOver]).
    - An awaited promise is fulfilled, rejected or never settled; a run of
      the submit handler returns, throws or stays suspended.
    - A value typed by the user into an input is a sequence of UTF-16 code
      units ([jsstring]); the fixed reason messages are ASCII [string]s. *)

From Stdlib Require Import ZArith NArith QArith Qpower Ascii String List Bool Lia Arith.
From Stdlib Require Import PrimFloat.
From Stdlib Require Uint63.
Import ListNotations.

Local Open Scope Z_scope.

(* ================================================================== *)
(** * JavaScript strings and [String.prototype.trim] *)
(* ================================================================== *)

Module Js.

(** A string value: its UTF-16 code units. *)
Definition jsstring := list N.

(** ECMAScript [WhiteSpace] and [LineTerminator] code points, the set
    stripped by [trim]: TAB, LF, VT, FF, CR, SP, NBSP, the Unicode
    [Space_Separator] category, LS, PS and ZWNBSP. *)
Definition isWhiteSpace (c : N) : bool :=
  ((9 <=? c) && (c <=? 13) ||
   (c =? 32) || (c =? 160) || (c =? 5760) ||
   (8192 <=? c) && (c <=? 8202) ||
   (c =? 8232) || (c =? 8233) || (c =? 8239) || (c =? 8287) ||
   (c =? 12288) || (c =? 65279))%N.

Fixpoint trimStart (s : jsstring) : jsstring :=
  match s with
  | [] => []
  | c :: rest => if isWhiteSpace c then trimStart rest else s
  end.

Definition trimEnd (s : jsstring) : jsstring := rev (trimStart (rev s)).

Definition trim (s : jsstring) : jsstring := trimEnd (trimStart s).

(** [s !== ''] *)
Definition nonEmpty (s : jsstring) : bool :=
  match s with [] => false | _ :: _ => true end.

(** Code units of an ASCII literal. *)
Fixpoint lit (s : string) : jsstring :=
  match s with
  | EmptyString => []
  | String a rest => N_of_ascii a :: lit rest
  end.

End Js.

(* ================================================================== *)
(** * components/honeypot.tsx *)
(* ================================================================== *)

Module Honeypot.

Definition DEFAULT_HONEYPOT_FIELDS : list string :=
  [ "hp_contact_info"; "hp_website_url"; "hp_fax_number"; "hp_company_name" ]%string.

(** A change event of one of the rendered inputs. *)
Record ChangeEvent := { fieldName : string; value : Js.jsstring }.

(** [e.target.value.trim() !== ''] *)
Definition isFill (e : ChangeEvent) : bool := Js.nonEmpty (Js.trim (value e)).

Section Component.
(** The state of whoever owns the [onBotDetected] prop. *)
Context {W : Type}.
Variable onBotDetected : W -> W.

(** One mounted instance: the [hasTriggered] ref, next to the owner's
    state the callback acts on. *)
Record Instance := { hasTriggered : bool; owner : W }.

Definition mount (w : W) : Instance :=
  {| hasTriggered := false; owner := w |}.

Definition handleFieldChange (e : ChangeEvent) (i : Instance) : Instance :=
  if Js.nonEmpty (Js.trim (value e)) && negb (hasTriggered i)
  then {| hasTriggered := true; owner := onBotDetected (owner i) |}
  else i.

(** The changes of a list of events, delivered in order. *)
Definition changes (es : list ChangeEvent) (i : Instance) : Instance :=
  fold_left (fun i e => handleFieldChange e i) es i.
End Component.

Arguments Instance W : clear implicits.

(** A mock callback that only counts its invocations. *)
Definition Spy := nat.
Definition spy : Spy -> Spy := S.

(** Number of invocations of the callback while [es] is delivered to a
  freshly mounted instance. *)
Definition calls (es : list ChangeEvent) : nat :=
  owner (changes spy es (mount 0%nat)).

(** Whether the callback is invoked by the event at position [n] of [es]. *)
Definition firesAt (es : list ChangeEvent) (n : nat) : bool :=
  negb (calls (firstn (S n) es) =? calls (firstn n es))%nat.

(** Position [n] holds the first event of [es] whose value is not
  whitespace-only. *)
Definition firstFill (es : list ChangeEvent) (n : nat) : Prop :=
  (exists e, nth_error es n = Some e /\ Js.nonEmpty (Js.trim (value e)) = true) /\
  forall m e, (m < n)%nat -> nth_error es m = Some e ->
              Js.nonEmpty (Js.trim (value e)) = false.

Definition whitespaceOnly (s : Js.jsstring) : Prop :=
  Forall (fun c => Js.isWhiteSpace c = true) s.

End Honeypot.

(* ================================================================== *)
(** * hooks/use-honeypot.tsx *)
(* ================================================================== *)

Module UseHoneypot.

Record State := { isBotDetected : bool; botScore : Z }.

Definition initial : State := {| isBotDetected := false; botScore := 0 |}.

Definition handleBotDetected (s : State) : State :=
  {| isBotDetected := true; botScore := botScore s + 50 |}.

Definition resetDetection (s : State) : State :=
  {| isBotDetected := false; botScore := 0 |}.

(** The hook's state with a count of the invocations of
  [handleBotDetected], which the hook passes as [onBotDetected] to the
  [Honeypot] it renders. *)
Record Observed := { hook : State; invocations : nat }.

Definition onBotDetected (o : Observed) : Observed :=
  {| hook := handleBotDetected (hook o); invocations := S (invocations o) |}.

(** What can happen to the hook and its mounted [HoneypotComponent]. *)
Inductive Action :=
| Change (e : Honeypot.ChangeEvent)
| ResetDetection.

Definition step (i : Honeypot.Instance Observed) (a : Action)
  : Honeypot.Instance Observed :=
  match a with
  | Change e => Honeypot.handleFieldChange onBotDetected e i
  | ResetDetection =>
      (* [resetDetection] writes the hook's two state cells; the ref of
         the mounted component is not reachable from the hook *)
      {| Honeypot.hasTriggered := Honeypot.hasTriggered i;
         Honeypot.owner :=
           {| hook := resetDetection (hook (Honeypot.owner i));
              invocations := invocations (Honeypot.owner i) |} |}
  end.

Definition run (acts : list Action) (i : Honeypot.Instance Observed)
  : Honeypot.Instance Observed :=
  fold_left step acts i.

Definition mounted : Honeypot.Instance Observed :=
  Honeypot.mount {| hook := initial; invocations := 0 |}.

Definition fill (name : string) (v : string) : Action :=
  Change {| Honeypot.fieldName := name; Honeypot.value := Js.lit v |}.

End UseHoneypot.

(* ================================================================== *)
(** * types.ts *)
(* ================================================================== *)

Module Types.

Record BotDetectionStats := {
  mouseMovements : Z;
  typingEvents : Z;
  focusEvents : Z;
  timeSpent : Z
}.

Record BotDetectionResult := {
  score : Z;
  reasons : list string;
  isBot : bool;
  stats : BotDetectionStats;
  honeypotTriggered : bool
}.

End Types.

(* ================================================================== *)
(** * Array and number helpers *)
(* ================================================================== *)

Module Arr.

(** [a.push(v)] *)
Definition push {A} (a : list A) (v : A) : list A := a ++ [v].

(** [a.shift()], the array that remains. *)
Definition shift {A} (a : list A) : list A := tl a.

(** [a.slice(-n)]: the last [n] elements, all of them when there are fewer. *)
Definition sliceLast {A} (n : nat) (a : list A) : list A :=
  skipn (length a - n) a.

(** [a.map((v, i) => f v i)] *)
Definition mapi {A B} (f : A -> nat -> B) (a : list A) : list B :=
  map (fun p => f (snd p) (fst p)) (combine (seq 0 (length a)) a).

(** [a.reduce((x, y) => x + y, 0)] on integers. *)
Definition sum (a : list Z) : Z := fold_left Z.add a 0.

(** [q < r] on quotients. *)
Definition Qltb (q r : Q) : bool := negb (Qle_bool r q).

(** [s / n] for an integer sum and an array length. *)
Definition over (s : Z) (n : nat) : Q := (inject_Z s / inject_Z (Z.of_nat n))%Q.

(** The binary64 number with an integer value (exact below 2^53). *)
Definition toDouble (z : Z) : float :=
  match z with
  | Z0 => 0%float
  | Zpos _ => PrimFloat.of_uint63 (Uint63.of_Z z)
  | Zneg _ => PrimFloat.opp (PrimFloat.of_uint63 (Uint63.of_Z (- z)))
  end.

(** [Math.pow(x, 2)]: the product [x * x], rounded once. *)
Definition pow2 (x : float) : float := PrimFloat.mul x x.

End Arr.

(* ================================================================== *)
(** * hooks/use-bot-detection.ts *)
(* ================================================================== *)

Module MouseMovement.
Record t := mk { x : Z; y : Z; timestamp : Z }.
End MouseMovement.

Module TypingPattern.
Record t := mk { key : string; timestamp : Z; timeSinceLastKey : Z }.
End TypingPattern.

(** The part of the host environment [analyzeBehavior] reads.  A global that
    is [undefined] is [None]; so is a [navigator.webdriver] that is absent. *)
Module Host.
Record Navigator := { webdriver : option bool }.
Record Window := { outerWidth : Z; outerHeight : Z }.
Record t := { navigator : option Navigator; window : option Window }.
End Host.

Module UseBotDetection.
Import Types.

Record MouseEvent := { clientX : Z; clientY : Z }.
Record KeyboardEvent := { key : string }.

(** The hook's [useState] and [useRef] cells. *)
Record Hook := {
  botScore : Z;
  detectionReasons : list string;
  formStartTime : Z;
  mouseMovements : list MouseMovement.t;
  hasMouseMovement : bool;
  typingPatterns : list TypingPattern.t;
  lastKeyTime : Z;
  focusEvents : Z
}.

(** The cells at mount, [now] being [Date.now()] at that moment. *)
Definition initial (now : Z) : Hook :=
  {| botScore := 0;
     detectionReasons := [];
     formStartTime := now;
     mouseMovements := [];
     hasMouseMovement := false;
     typingPatterns := [];
     lastKeyTime := 0;
     focusEvents := 0 |}.

Definition trackMouseMovement (e : MouseEvent) (now : Z) (h : Hook) : Hook :=
  let movement := MouseMovement.mk (clientX e) (clientY e) now in
  let pushed := Arr.push (mouseMovements h) movement in
  {| botScore := botScore h;
     detectionReasons := detectionReasons h;
     formStartTime := formStartTime h;
     mouseMovements :=
       if (50 <? length pushed)%nat then Arr.shift pushed else pushed;
     hasMouseMovement := true;
     typingPatterns := typingPatterns h;
     lastKeyTime := lastKeyTime h;
     focusEvents := focusEvents h |}.

Definition trackKeyPress (e : KeyboardEvent) (now : Z) (h : Hook) : Hook :=
  let timeSinceLastKey := now - lastKeyTime h in
  let pattern := TypingPattern.mk (key e) now timeSinceLastKey in
  let pushed := Arr.push (typingPatterns h) pattern in
  {| botScore := botScore h;
     detectionReasons := detectionReasons h;
     formStartTime := formStartTime h;
     mouseMovements := mouseMovements h;
     hasMouseMovement := hasMouseMovement h;
     typingPatterns :=
       if (100 <? length pushed)%nat then Arr.shift pushed else pushed;
     lastKeyTime := now;
     focusEvents := focusEvents h |}.

Definition handleFieldFocus (h : Hook) : Hook :=
  {| botScore := botScore h;
     detectionReasons := detectionReasons h;
     formStartTime := formStartTime h;
     mouseMovements := mouseMovements h;
     hasMouseMovement := hasMouseMovement h;
     typingPatterns := typingPatterns h;
     lastKeyTime := lastKeyTime h;
     focusEvents := focusEvents h + 1 |}.

(** ** The locals of [analyzeBehavior] *)

Definition movements (h : Hook) : list MouseMovement.t :=
  Arr.sliceLast 20 (mouseMovements h).

(** The callback [(m, i) => ...] mapped over [movements]. *)
Definition variationOf (movements : list MouseMovement.t)
  (m : MouseMovement.t) (i : nat) : Z :=
  if (i =? 0)%nat then 0
  else
    let prev := nth (i - 1) movements m in
    Z.abs (MouseMovement.x m - MouseMovement.x prev) +
    Z.abs (MouseMovement.y m - MouseMovement.y prev).

Definition variations (h : Hook) : list Z :=
  Arr.mapi (variationOf (movements h)) (movements h).

Definition avgVariation (h : Hook) : Q :=
  Arr.over (Arr.sum (variations h)) (length (variations h)).

Definition intervals (h : Hook) : list Z :=
  filter (fun t => (0 <? t) && (t <? 1000))
    (map TypingPattern.timeSinceLastKey
       (Arr.sliceLast 20 (typingPatterns h))).

(** The sum of the deltas is an integer below 20000, hence exact. *)
Definition avgInterval (h : Hook) : float :=
  PrimFloat.div (Arr.toDouble (Arr.sum (intervals h)))
    (Arr.toDouble (Z.of_nat (length (intervals h)))).

Definition variance (h : Hook) : float :=
  PrimFloat.div
    (fold_left
       (fun acc interval =>
          PrimFloat.add acc
            (Arr.pow2 (PrimFloat.sub (Arr.toDouble interval) (avgInterval h))))
       (intervals h) 0%float)
    (Arr.toDouble (Z.of_nat (length (intervals h)))).

(** ** The running [score] and [reasons] of [analyzeBehavior] *)

Record Tally := { tallyScore : Z; tallyReasons : list string }.

(** [score += w; reasons.push(r)] *)
Definition flag (w : Z) (r : string) (t : Tally) : Tally :=
  {| tallyScore := tallyScore t + w;
     tallyReasons := Arr.push (tallyReasons t) r |}.

Definition webdriverIsTrue (env : Host.t) : bool :=
  match Host.navigator env with
  | Some nav =>
      match Host.webdriver nav with Some true => true | _ => false end
  | None => false
  end.

Definition outerSizeIsZero (env : Host.t) : bool :=
  match Host.window env with
  | Some w => (Host.outerWidth w =? 0) || (Host.outerHeight w =? 0)
  | None => false
  end.

(** [currentTime] is the first reading of [Date.now()], [lateTime] the
    second one, taken while the result object is built. *)
Definition analyzeBehavior
  (env : Host.t) (currentTime lateTime : Z) (h : Hook) : BotDetectionResult :=
  let t := {| tallyScore := 0; tallyReasons := [] |} in
  (* 1. Check mouse movements *)
  let t :=
    if negb (hasMouseMovement h) || (length (mouseMovements h) <? 5)%nat
    then flag 30 "No natural mouse movement detected" t
    else if Arr.Qltb (avgVariation h) 5
         then flag 20 "Unnatural mouse movement patterns" t
         else t in
  (* 2. Check typing patterns *)
  let t :=
    if (10 <? length (typingPatterns h))%nat
    then
      if (5 <? length (intervals h))%nat
      then
        let t :=
          if PrimFloat.ltb (variance h) 100
          then flag 15 "Unnaturally consistent typing pattern" t
          else t in
        if PrimFloat.ltb (avgInterval h) 50
        then flag 20 "Superhuman typing speed detected" t
        else t
      else t
    else t in
  (* 3. Check form filling speed *)
  let totalTime := currentTime - formStartTime h in
  let t :=
    if totalTime <? 2000 then flag 40 "Form filled too quickly" t else t in
  (* 4. Check focus events *)
  let t :=
    if focusEvents h <? 2
    then flag 15 "Insufficient focus interactions" t
    else t in
  (* 5. Check browser features *)
  let t :=
    if webdriverIsTrue env then flag 25 "Automated browser detected" t else t in
  (* 6. Check for headless browser indicators *)
  let t :=
    if outerSizeIsZero env then flag 35 "Headless browser indicators" t else t in
  {| score := tallyScore t;
     reasons := tallyReasons t;
     isBot := 50 <=? tallyScore t;
     stats :=
       {| Types.mouseMovements := Z.of_nat (length (mouseMovements h));
          Types.typingEvents := Z.of_nat (length (typingPatterns h));
          Types.focusEvents := focusEvents h;
          Types.timeSpent := lateTime - formStartTime h |};
     honeypotTriggered := false |}.

Definition handleFormSubmit
  (env : Host.t) (currentTime lateTime : Z) (h : Hook)
  : Hook * BotDetectionResult :=
  let result := analyzeBehavior env currentTime lateTime h in
  ({| botScore := score result;
      detectionReasons := reasons result;
      formStartTime := formStartTime h;
      mouseMovements := mouseMovements h;
      hasMouseMovement := hasMouseMovement h;
      typingPatterns := typingPatterns h;
      lastKeyTime := lastKeyTime h;
      focusEvents := focusEvents h |},
   result).

(** The [stats] the hook returns at a render that happens at time [now]. *)
Definition renderStats (now : Z) (h : Hook) : BotDetectionStats :=
  {| Types.mouseMovements := Z.of_nat (length (mouseMovements h));
     Types.typingEvents := Z.of_nat (length (typingPatterns h));
     Types.focusEvents := focusEvents h;
     Types.timeSpent := now - formStartTime h |}.

(** ** Sessions: the document-level events a mounted hook receives *)

Inductive Input :=
| MouseMove (e : MouseEvent) (now : Z)
| KeyDown (e : KeyboardEvent) (now : Z)
| Focus.

Definition handle (h : Hook) (i : Input) : Hook :=
  match i with
  | MouseMove e now => trackMouseMovement e now h
  | KeyDown e now => trackKeyPress e now h
  | Focus => handleFieldFocus h
  end.

(** The cells of the hook after the events [inputs]; [closureOver] tells
    which of them a callback of an earlier render reads. *)
Definition session (start : Z) (inputs : list Input) : Hook :=
  fold_left handle inputs (initial start).

(** The key events of a session, in arrival order. *)
Fixpoint keyEvents (inputs : list Input) : list (KeyboardEvent * Z) :=
  match inputs with
  | [] => []
  | KeyDown e now :: rest => (e, now) :: keyEvents rest
  | _ :: rest => keyEvents rest
  end.

(** The sample [trackKeyPress] builds for the [n]-th key event of [keys]:
    its delta is taken from the timestamp of the key event just before it,
    and from the initial [lastKeyTime] of 0 when there is none. *)
Definition sampleOf (keys : list (KeyboardEvent * Z)) (n : nat) : TypingPattern.t :=
  let now := snd (nth n keys ({| key := "" |}, 0)) in
  let previous :=
    match n with
    | O => 0
    | S m => snd (nth m keys ({| key := "" |}, 0))
    end in
  TypingPattern.mk (key (fst (nth n keys ({| key := "" |}, 0)))) now (now - previous).

(** What the memoised callbacks of a render read.  [analyzeBehavior] is a
    [useCallback] over [hasMouseMovement], [focusEvents] and
    [formStartTime]: it reads these three [useState] values as they were at
    the render that created it ([rendered]), and the [useRef] cells as they
    are when it runs ([live]).  The hook passed to [analyzeBehavior] is this
    view; it is the live hook itself once a render has been committed after
    the last event. *)
Definition closureOver (rendered live : Hook) : Hook :=
  {| botScore := botScore live;
     detectionReasons := detectionReasons live;
     formStartTime := formStartTime rendered;
     mouseMovements := mouseMovements live;
     hasMouseMovement := hasMouseMovement rendered;
     typingPatterns := typingPatterns live;
     lastKeyTime := lastKeyTime live;
     focusEvents := focusEvents rendered |}.

(** The view of [analyzeBehavior] when the last committed render followed
    the events [shown] and the events [pending] have arrived since, in the
    task that makes the call. *)
Definition viewAfter (start : Z) (shown pending : list Input) : Hook :=
  closureOver (session start shown) (session start (shown ++ pending)).

(** The [isBot] the hook returns at a render: [botScore >= 50]. *)
Definition returnedIsBot (h : Hook) : bool := 50 <=? botScore h.

(** The samples [trackMouseMovement] builds for the pointer events of a
    session, in arrival order. *)
Fixpoint mouseSamples (inputs : list Input) : list MouseMovement.t :=
  match inputs with
  | [] => []
  | MouseMove e now :: rest =>
      MouseMovement.mk (clientX e) (clientY e) now :: mouseSamples rest
  | _ :: rest => mouseSamples rest
  end.

(** The number of focus events of a session. *)
Fixpoint focusCount (inputs : list Input) : nat :=
  match inputs with
  | [] => O
  | Focus :: rest => S (focusCount rest)
  | _ :: rest => focusCount rest
  end.

(** The samples built for all the key events of [keys], oldest first. *)
Definition samplesOf (keys : list (KeyboardEvent * Z)) : list TypingPattern.t :=
  map (sampleOf keys) (seq 0 (length keys)).

(** The timestamp of the latest key event of [keys], 0 when there is none. *)
Definition latestKeyTime (keys : list (KeyboardEvent * Z)) : Z :=
  match length keys with
  | O => 0
  | S m => snd (nth m keys ({| key := "" |}, 0))
  end.

End UseBotDetection.

(* ================================================================== *)
(** * The rule table of the behaviour scorer *)
(* ================================================================== *)

Module Rules.
Import Types UseBotDetection.

(** Names for the eight checks of [analyzeBehavior], in the order in which
    the function performs them. *)
Inductive Rule := R1 | R2 | R3 | R4 | R5 | R6 | R7 | R8.

Definition evaluationOrder : list Rule := [R1; R2; R3; R4; R5; R6; R7; R8].

Definition weight (r : Rule) : Z :=
  match r with
  | R1 => 30 | R2 => 20 | R3 => 15 | R4 => 20
  | R5 => 40 | R6 => 15 | R7 => 25 | R8 => 35
  end.

Definition reason (r : Rule) : string :=
  match r with
  | R1 => "No natural mouse movement detected"
  | R2 => "Unnatural mouse movement patterns"
  | R3 => "Unnaturally consistent typing pattern"
  | R4 => "Superhuman typing speed detected"
  | R5 => "Form filled too quickly"
  | R6 => "Insufficient focus interactions"
  | R7 => "Automated browser detected"
  | R8 => "Headless browser indicators"
  end.

(** The weight of the rule a reason string belongs to. *)
Definition weightOfReason (s : string) : Z :=
  match find (fun r => String.eqb (reason r) s) evaluationOrder with
  | Some r => weight r
  | None => 0
  end.

(** What a rule has added to a result: its weight when its reason is listed. *)
Definition contribution (r : Rule) (res : BotDetectionResult) : Z :=
  if existsb (String.eqb (reason r)) (reasons res) then weight r else 0.

(** What the rules other than [r] have added to a result. *)
Definition othersContribution (r : Rule) (res : BotDetectionResult) : Z :=
  Arr.sum
    (map (fun q => contribution q res)
       (filter (fun q => negb (String.eqb (reason q) (reason r))) evaluationOrder)).

(** The condition under which [analyzeBehavior] performs the flagging of a
    rule, read off its branches. *)
Definition fires (env : Host.t) (currentTime : Z) (h : Hook) (r : Rule) : bool :=
  let noMouse :=
    negb (hasMouseMovement h) || (length (mouseMovements h) <? 5)%nat in
  let typingGate :=
    (10 <? length (typingPatterns h))%nat && (5 <? length (intervals h))%nat in
  match r with
  | R1 => noMouse
  | R2 => negb noMouse && Arr.Qltb (avgVariation h) 5
  | R3 => typingGate && PrimFloat.ltb (variance h) 100
  | R4 => typingGate && PrimFloat.ltb (avgInterval h) 50
  | R5 => currentTime - formStartTime h <? 2000
  | R6 => focusEvents h <? 2
  | R7 => webdriverIsTrue env
  | R8 => outerSizeIsZero env
  end.

(** [l1] is [l2] with some elements left out, the others in their order. *)
Inductive Subsequence {A : Type} : list A -> list A -> Prop :=
| sub_nil : Subsequence [] []
| sub_skip x l1 l2 : Subsequence l1 l2 -> Subsequence l1 (x :: l2)
| sub_take x l1 l2 : Subsequence l1 l2 -> Subsequence (x :: l1) (x :: l2).

(** The Manhattan distances between each sample and the next one. *)
Fixpoint consecutiveDistances (ms : list MouseMovement.t) : list Z :=
  match ms with
  | [] => []
  | a :: rest =>
      match rest with
      | [] => []
      | b :: _ =>
          (Z.abs (MouseMovement.x b - MouseMovement.x a) +
           Z.abs (MouseMovement.y b - MouseMovement.y a))
          :: consecutiveDistances rest
      end
  end.

(** The average of the consecutive Manhattan distances, as the
    specification words rule R2: the distances are what is averaged, so
    their sum is divided by their number. *)
Definition averageConsecutiveDistance (ms : list MouseMovement.t) : Q :=
  Arr.over (Arr.sum (consecutiveDistances ms)) (length (consecutiveDistances ms)).

End Rules.

(* ================================================================== *)
(** * Binary64 facts by evaluation *)
(* ================================================================== *)

Module Binary64.

(** The [k] integers from [z] on. *)
Fixpoint upto (k : nat) (z : Z) : list Z :=
  match k with
  | O => []
  | S k' => z :: upto k' (z + 1)
  end.

(** [avgInterval] and [variance] as functions of the filtered deltas. *)
Definition meanOf (l : list Z) : float :=
  PrimFloat.div (Arr.toDouble (Arr.sum l)) (Arr.toDouble (Z.of_nat (length l))).

Definition varianceOf (l : list Z) : float :=
  PrimFloat.div
    (fold_left
       (fun acc interval =>
          PrimFloat.add acc
            (Arr.pow2 (PrimFloat.sub (Arr.toDouble interval) (meanOf l))))
       l 0%float)
    (Arr.toDouble (Z.of_nat (length l))).

(** The binary64 quotient [s / n] is below 50 exactly when [s < 50 * n]. *)
Definition meanAgrees (n s : Z) : bool :=
  Bool.eqb
    (PrimFloat.ltb (PrimFloat.div (Arr.toDouble s) (Arr.toDouble n)) 50)
    (s <? 50 * n).

(** The binary64 variance of [n] deltas equal to [c] is zero, and below
    100. *)
Definition cadenceIsFlat (n c : Z) : bool :=
  PrimFloat.eqb (varianceOf (repeat c (Z.to_nat n))) 0 &&
  PrimFloat.ltb (varianceOf (repeat c (Z.to_nat n))) 100.

End Binary64.

(* ================================================================== *)
(** * components/bot-protected-form.tsx *)
(* ================================================================== *)

Module BotProtectedForm.
Import Types.

(** A thrown value, or the reason of a rejected promise. *)
Record JsError := { message : string }.

Definition FormData := list (string * Js.jsstring).

Record SubmitEvent := { currentTarget : FormData }.

(** A caller-supplied callback acts on the caller's own state [C].  A
    synchronous one, as [onBotDetected], returns ([None]) or throws
    ([Some error]). *)
Definition Callback (C : Type) := C -> C * option JsError.

(** How the promise returned by [onSubmit] ends: it is fulfilled, it is
    rejected (a handler that throws before returning a promise reaches the
    same [catch]), or it never settles. *)
Inductive Settlement :=
| Fulfilled
| Rejected (error : JsError)
| Pending.

Definition AsyncCallback (C : Type) := C -> C * Settlement.

(** How a run of code ends: it returns, it throws, or it stays suspended
    at an [await] whose promise never settles. *)
Inductive Completion (A : Type) :=
| Returned (a : A)
| Threw (error : JsError)
| Suspended.

Arguments Returned {A} a.
Arguments Threw {A} error.
Arguments Suspended {A}.

Section Form.
Context {C : Type}.

Record World := {
  isSubmitting : bool;
  detection : UseBotDetection.Hook;
  console : list (string * JsError);
  caller : C
}.

(** Code that runs on the world. *)
Definition Eff (A : Type) := World -> World * Completion A.

Definition ret {A} (a : A) : Eff A := fun w => (w, Returned a).

Definition bind {A B} (m : Eff A) (k : A -> Eff B) : Eff B :=
  fun w =>
    match m w with
    | (w', Returned a) => k a w'
    | (w', Threw err) => (w', Threw err)
    | (w', Suspended) => (w', Suspended)
    end.

Local Notation "x <- m ;; k" := (bind m (fun x => k))
  (at level 61, m at next level, right associativity).
Local Notation "m ;; k" := (bind m (fun _ => k))
  (at level 61, right associativity).

(** [try { body } catch (error) { handler } finally { finalizer }]: a run
    that stays suspended reaches neither the handler nor the finalizer. *)
Definition tryCatchFinally {A}
  (body : Eff A) (handler : JsError -> Eff A) (finalizer : Eff unit) : Eff A :=
  fun w =>
    let caught :=
      match body w with
      | (w', Returned a) => (w', Returned a)
      | (w', Threw err) => handler err w'
      | (w', Suspended) => (w', Suspended)
      end in
    match snd caught with
    | Suspended => (fst caught, Suspended)
    | _ =>
        match finalizer (fst caught) with
        | (w'', Returned _) => (w'', snd caught)
        | (w'', Threw err) => (w'', Threw err)
        | (w'', Suspended) => (w'', Suspended)
        end
    end.

Definition setIsSubmitting (b : bool) : Eff unit :=
  fun w =>
    ({| isSubmitting := b; detection := detection w;
        console := console w; caller := caller w |}, Returned tt).

(** [console.error(tag, error)] *)
Definition consoleError (tag : string) (error : JsError) : Eff unit :=
  fun w =>
    ({| isSubmitting := isSubmitting w; detection := detection w;
        console := Arr.push (console w) (tag, error); caller := caller w |},
     Returned tt).

Definition call (f : Callback C) : Eff unit :=
  fun w =>
    let r := f (caller w) in
    ({| isSubmitting := isSubmitting w; detection := detection w;
        console := console w; caller := fst r |},
     match snd r with None => Returned tt | Some err => Threw err end).

(** [await f(...)] *)
Definition await (f : AsyncCallback C) : Eff unit :=
  fun w =>
    let r := f (caller w) in
    ({| isSubmitting := isSubmitting w; detection := detection w;
        console := console w; caller := fst r |},
     match snd r with
     | Fulfilled => Returned tt
     | Rejected err => Threw err
     | Pending => Suspended
     end).

(** The hook's [handleFormSubmit], run on the hook inside the world. *)
Definition handleFormSubmit (env : Host.t) (currentTime lateTime : Z)
  : Eff BotDetectionResult :=
  fun w =>
    let r := UseBotDetection.handleFormSubmit env currentTime lateTime (detection w) in
    ({| isSubmitting := isSubmitting w; detection := fst r;
        console := console w; caller := caller w |},
     Returned (snd r)).

(** The [botDetectionResult] object built by [handleSubmit]. *)
Definition botDetectionResult
  (behaviorResult : BotDetectionResult) (honeypotTriggered : bool)
  (stats : BotDetectionStats) : BotDetectionResult :=
  let finalBotScore :=
    score behaviorResult + (if honeypotTriggered then 100 else 0) in
  let allReasons :=
    (reasons behaviorResult ++
     (if honeypotTriggered then ["Honeypot field filled"%string] else []))%list in
  {| score := finalBotScore;
     reasons := allReasons;
     isBot := (50 <=? finalBotScore) || honeypotTriggered;
     stats := stats;
     honeypotTriggered := honeypotTriggered |}.

(** The props and the values of the last render that [handleSubmit] closes
    over. *)
Variable onSubmit : FormData -> BotDetectionResult -> AsyncCallback C.
Variable onBotDetected : option (BotDetectionResult -> Callback C).
Variable honeypotTriggered : bool.
Variable stats : BotDetectionStats.

Definition handleSubmit (env : Host.t) (currentTime lateTime : Z)
  (e : SubmitEvent) : Eff unit :=
  setIsSubmitting true ;;
  tryCatchFinally
    (behaviorResult <- handleFormSubmit env currentTime lateTime ;;
     let result := botDetectionResult behaviorResult honeypotTriggered stats in
     if isBot result
     then
       match onBotDetected with
       | Some f => call (f result)
       | None => ret tt
       end ;;
       setIsSubmitting false
     else
       let formData := currentTarget e in
       await (onSubmit formData result))
    (fun error => consoleError "Form submission error:" error)
    (setIsSubmitting false).

(** The [disabled] prop of the submit button. *)
Definition buttonDisabled (w : World) : bool := isSubmitting w.

End Form.

Arguments World C : clear implicits.

End BotProtectedForm.

(* ================================================================== *)
(** * Sample sessions *)
(* ================================================================== *)

Module Scenarios.
Import UseBotDetection.

(** A desktop browser that is neither automated nor headless. *)
Definition desktop : Host.t :=
  {| Host.navigator := Some {| Host.webdriver := Some false |};
     Host.window := Some {| Host.outerWidth := 1280; Host.outerHeight := 720 |} |}.

(** The moment the form is mounted, in epoch milliseconds. *)
Definition mountTime : Z := 1700000000000.

(** [n] presses of the key "a", the first at [first], one every [gap] ms. *)
Definition keysEvery (first gap : Z) (n : nat) : list Input :=
  map (fun i => KeyDown {| key := "a" |} (first + gap * Z.of_nat i)) (seq 0 n).

(** [n] pointer positions on a horizontal line, [stride] pixels apart. *)
Definition mouseLine (stride : Z) (n : nat) : list Input :=
  map (fun i =>
         MouseMove {| clientX := stride * Z.of_nat i; clientY := 0 |}
           (mountTime + 10 * Z.of_nat i))
      (seq 0 n).

(** Presses of the key "a": the first at [first], each further one the
    given number of milliseconds after the one before. *)
Fixpoint keysAfter (first : Z) (gaps : list Z) : list Input :=
  KeyDown {| key := "a" |} first ::
  match gaps with
  | [] => []
  | gap :: rest => keysAfter (first + gap) rest
  end.

(** A visitor who moves the pointer in strides of 50 px and focuses two
    fields. *)
Definition visitor : list Input := (mouseLine 50 10 ++ [Focus; Focus])%list.

End Scenarios.

(* ================================================================== *)
(** * Properties of the honeypot *)
(* ================================================================== *)

Section TrimFacts.
Import Js.

Lemma trimStart_blank (s : jsstring) :
  Forall (fun c => isWhiteSpace c = true) s -> trimStart s = [].
Proof.
  induction 1 as [|c s Hc _ IH]; simpl; [reflexivity|].
  now rewrite Hc.
Qed.

Lemma trim_blank (s : jsstring) :
  Forall (fun c => isWhiteSpace c = true) s -> nonEmpty (trim s) = false.
Proof.
  intros H. unfold trim, trimEnd.
  now rewrite (trimStart_blank s H).
Qed.
End TrimFacts.

Section HoneypotFacts.
Import Honeypot.
Context {W : Type} (f : W -> W).

Lemma changes_app (es es' : list ChangeEvent) (i : Instance W) :
  changes f (es ++ es') i = changes f es' (changes f es i).
Proof. unfold changes. now rewrite fold_left_app. Qed.

(** Once latched, the instance ignores every further change. *)
Lemma changes_latched (es : list ChangeEvent) (i : Instance W) :
  hasTriggered i = true -> changes f es i = i.
Proof.
  induction es as [|e es IH]; intros Hi; [reflexivity|].
  simpl. unfold handleFieldChange at 1. rewrite Hi, andb_false_r.
  now apply IH.
Qed.

(** Whitespace-only changes are ignored in every state. *)
Lemma changes_blank (es : list ChangeEvent) (i : Instance W) :
  Forall (fun e => Js.nonEmpty (Js.trim (value e)) = false) es ->
  changes f es i = i.
Proof.
  induction 1 as [|e es He _ IH]; [reflexivity|].
  simpl. unfold handleFieldChange at 1. now rewrite He.
Qed.

(** A fill of an un-latched instance latches it and calls back once. *)
Lemma handleFieldChange_fill (e : ChangeEvent) (i : Instance W) :
  Js.nonEmpty (Js.trim (value e)) = true -> hasTriggered i = false ->
  handleFieldChange f e i = {| hasTriggered := true; owner := f (owner i) |}.
Proof. intros He Hi. unfold handleFieldChange. now rewrite He, Hi. Qed.
End HoneypotFacts.

Section HoneypotLatch.
Import Honeypot.

Lemma changes_spy (es : list ChangeEvent) (i : Instance Spy) :
  hasTriggered i = false ->
  changes spy es i =
    if existsb isFill es
    then {| hasTriggered := true; owner := S (owner i) |}
    else i.
Proof.
  revert i. induction es as [|e es IH]; intros i Hi; [reflexivity|].
  simpl. destruct (isFill e) eqn:He.
  - unfold isFill in He. rewrite (handleFieldChange_fill spy e i He Hi).
    now apply changes_latched.
  - unfold handleFieldChange at 1. unfold isFill in He. rewrite He. simpl.
    now apply IH.
Qed.

Lemma calls_spec (es : list ChangeEvent) :
  calls es = if existsb isFill es then 1%nat else 0%nat.
Proof.
  unfold calls. rewrite changes_spy by reflexivity.
  now destruct (existsb isFill es).
Qed.

Lemma existsb_firstn_S (es : list ChangeEvent) (n : nat) :
  existsb isFill (firstn (S n) es) =
  existsb isFill (firstn n es) ||
  match nth_error es n with Some e => isFill e | None => false end.
Proof.
  revert n. induction es as [|e es IH]; intros [|n]; try reflexivity.
  - simpl. now rewrite orb_false_r.
  - change (isFill e || existsb isFill (firstn (S n) es) =
            (isFill e || existsb isFill (firstn n es)) ||
            match nth_error es n with Some e => isFill e | None => false end).
    now rewrite IH, orb_assoc.
Qed.

Lemma existsb_firstn_false (es : list ChangeEvent) (n : nat) :
  existsb isFill (firstn n es) = false <->
  forall m e, (m < n)%nat -> nth_error es m = Some e -> isFill e = false.
Proof.
  revert n. induction es as [|e es IH]; intros n.
  - rewrite firstn_nil. simpl. split; [|reflexivity].
    intros _ [|m] e' _ H; discriminate H.
  - destruct n as [|n]; simpl.
    + split; [intros _ m e' Hm; lia | reflexivity].
    + rewrite orb_false_iff, IH. split.
      * intros [He Hes] [|m] e' Hm H; simpl in H.
        -- now injection H as <-.
        -- apply (Hes m); [lia | exact H].
      * intros H. split.
        -- apply (H 0%nat); [lia | reflexivity].
        -- intros m e' Hm Hn. apply (H (S m)); [lia | exact Hn].
Qed.

Lemma firesAt_spec (es : list ChangeEvent) (n : nat) :
  firesAt es n = true <-> firstFill es n.
Proof.
  unfold firesAt, firstFill. rewrite !calls_spec, existsb_firstn_S.
  fold isFill. rewrite <- existsb_firstn_false.
  destruct (existsb isFill (firstn n es)); simpl.
  - split; [discriminate | intros [_ H]; discriminate H].
  - destruct (nth_error es n) as [e|].
    + destruct (isFill e) eqn:He; simpl.
      * split; [|reflexivity]. intros _. split; [|reflexivity].
        exists e. now split.
      * split; [discriminate|]. intros [[e' [H1 H2]] _].
        injection H1 as <-. unfold isFill in He. congruence.
    + simpl. split; [discriminate|]. intros [[e' [H1 _]] _]. discriminate H1.
Qed.

(** C2 (honeypot latch).  Whatever change events a mounted [Honeypot]
    receives, the bot-detected callback is invoked by exactly the first event
    whose trimmed value is non-empty and by no other event, so it is invoked
    once if such an event exists and never otherwise; in particular a
    sequence of whitespace-only values never invokes it. *)
Theorem honeypot_fires_once_at_first_fill (es : list ChangeEvent) :
  (forall n, firesAt es n = true <-> firstFill es n) /\
  calls es =
    (if existsb (fun e => Js.nonEmpty (Js.trim (value e))) es
     then 1%nat else 0%nat) /\
  (Forall (fun e => whitespaceOnly (value e)) es -> calls es = 0%nat).
Proof.
  split; [|split].
  - intros n. apply firesAt_spec.
  - apply calls_spec.
  - intros H. unfold calls.
    rewrite changes_blank; [reflexivity|].
    eapply Forall_impl; [|exact H].
    intros e He. now apply trim_blank.
Qed.

(** The scenario of the component's own test: two fields are filled, then a
    third change is whitespace-only. *)
Lemma honeypot_fires_once_at_first_fill_witness :
  let es := [ {| fieldName := "hp_website_url"; value := Js.lit "   " |};
              {| fieldName := "hp_website_url"; value := Js.lit "spam1" |};
              {| fieldName := "hp_fax_number"; value := Js.lit "spam2" |} ] in
  firstFill es 1 /\ calls es = 1%nat /\
  calls [ {| fieldName := "hp_website_url"; value := Js.lit "   " |} ] = 0%nat.
Proof.
  intros es.
  destruct (honeypot_fires_once_at_first_fill es) as [Hfire [Hcalls _]].
  destruct (honeypot_fires_once_at_first_fill
              [ {| fieldName := "hp_website_url"; value := Js.lit "   " |} ])
    as [_ [_ Hblank]].
  split; [|split].
  - apply Hfire. reflexivity.
  - exact Hcalls.
  - apply Hblank. repeat constructor.
Defined.

End HoneypotLatch.

Section HoneypotReset.
Import Honeypot UseHoneypot.

Lemma run_changes (es : list ChangeEvent) (i : Instance Observed) :
  run (map Change es) i = changes onBotDetected es i.
Proof.
  revert i. induction es as [|e es IH]; intros i; [reflexivity|].
  simpl. apply IH.
Qed.

(** C4 as stated fails: after a fill and a reset, a fresh fill of another
    field leaves the number of callback invocations at one, and the hook
    still reports no bot. *)
Lemma reset_then_fill_does_not_call_back :
  let before := run [ fill "hp_website_url" "spam"; ResetDetection ] mounted in
  let after := run [ fill "hp_fax_number" "spam2" ] before in
  invocations (owner before) = 1%nat /\
  invocations (owner after) = 1%nat /\
  isBotDetected (hook (owner after)) = false.
Proof. repeat split. Qed.

(** C4 (amended).  After a fill has triggered the honeypot,
    [resetDetection] restores [isBotDetected = false] and [botScore = 0] in
    the hook, but the component's [hasTriggered] latch stays set: no later
    change event of the mounted component invokes the callback again. *)
Theorem reset_clears_hook_but_not_latch
  (i0 : Instance Observed) (e : ChangeEvent) (es : list ChangeEvent) :
  hasTriggered i0 = false ->
  Js.nonEmpty (Js.trim (value e)) = true ->
  let i1 := step i0 (Change e) in
  let i2 := step i1 ResetDetection in
  invocations (owner i1) = S (invocations (owner i0)) /\
  isBotDetected (hook (owner i1)) = true /\
  isBotDetected (hook (owner i2)) = false /\
  botScore (hook (owner i2)) = 0 /\
  hasTriggered i2 = true /\
  run (map Change es) i2 = i2.
Proof.
  intros Hi He. simpl.
  rewrite (handleFieldChange_fill onBotDetected e i0 He Hi). simpl.
  repeat split.
  rewrite run_changes. now apply changes_latched.
Qed.

Lemma reset_clears_hook_but_not_latch_witness :
  let e := {| fieldName := "hp_website_url"; value := Js.lit "spam" |} in
  let e' := {| fieldName := "hp_fax_number"; value := Js.lit "spam2" |} in
  let i2 := step (step mounted (Change e)) ResetDetection in
  isBotDetected (hook (owner i2)) = false /\ run (map Change [e']) i2 = i2.
Proof.
  intros e e' i2.
  destruct (reset_clears_hook_but_not_latch mounted e [e'] eq_refl eq_refl)
    as (_ & _ & H & _ & _ & H').
  split; [exact H | exact H'].
Defined.

End HoneypotReset.

(* ================================================================== *)
(** * Properties of the behaviour scorer *)
(* ================================================================== *)

Section ScorerFacts.
Import Types UseBotDetection Rules.

(** [analyzeBehavior] flags exactly the rules that fire, in the order of
    the table. *)
Lemma analyzeBehavior_rules (env : Host.t) (currentTime lateTime : Z) (h : Hook) :
  reasons (analyzeBehavior env currentTime lateTime h) =
    map reason (filter (fires env currentTime h) evaluationOrder) /\
  score (analyzeBehavior env currentTime lateTime h) =
    Arr.sum (map weight (filter (fires env currentTime h) evaluationOrder)).
Proof.
  unfold analyzeBehavior, evaluationOrder, fires. cbv zeta.
  cbn [score reasons filter].
  generalize (negb (hasMouseMovement h) || (length (mouseMovements h) <? 5)%nat).
  generalize (Arr.Qltb (avgVariation h) 5).
  generalize (PrimFloat.ltb (variance h) 100).
  generalize (PrimFloat.ltb (avgInterval h) 50).
  generalize (10 <? length (typingPatterns h))%nat.
  generalize (5 <? length (intervals h))%nat.
  generalize (currentTime - formStartTime h <? 2000).
  generalize (focusEvents h <? 2).
  generalize (webdriverIsTrue env).
  generalize (outerSizeIsZero env).
  intros [] [] [] [] [] [] [] [] [] []; split; reflexivity.
Qed.

Lemma Qltb_lt (q r : Q) : Arr.Qltb q r = true <-> (q < r)%Q.
Proof.
  unfold Arr.Qltb. rewrite negb_true_iff. split.
  - intros H. apply Qnot_le_lt. intros Hle.
    apply Qle_bool_iff in Hle. congruence.
  - intros H. destruct (Qle_bool r q) eqn:E; [|reflexivity].
    apply Qle_bool_iff in E. exfalso. exact (Qlt_not_le _ _ H E).
Qed.

Lemma Subsequence_filter_map {A B} (f : A -> B) (p : A -> bool) (l : list A) :
  Subsequence (map f (filter p l)) (map f l).
Proof.
  induction l as [|a l IH]; simpl; [constructor|].
  destruct (p a); simpl; now constructor.
Qed.

Lemma Subsequence_In {A} (l1 l2 : list A) (x : A) :
  Subsequence l1 l2 -> In x l1 -> In x l2.
Proof.
  induction 1 as [|y l1 l2 _ IH|y l1 l2 _ IH]; simpl; intuition.
Qed.

Lemma Subsequence_NoDup {A} (l1 l2 : list A) :
  Subsequence l1 l2 -> NoDup l2 -> NoDup l1.
Proof.
  induction 1 as [|y l1 l2 Hs IH|y l1 l2 Hs IH]; intros Hnd.
  - constructor.
  - inversion Hnd; subst. now apply IH.
  - inversion Hnd as [|? ? Hy Hnd']; subst. constructor.
    + intros Hin. apply Hy. eapply Subsequence_In; eassumption.
    + now apply IH.
Qed.

Lemma reason_injective (q r : Rule) : reason q = reason r -> q = r.
Proof. destruct q, r; simpl; intros H; try reflexivity; discriminate H. Qed.

Lemma reasons_NoDup : NoDup (map reason evaluationOrder).
Proof.
  simpl. repeat constructor; simpl; intuition discriminate.
Qed.

Lemma weightOfReason_reason (r : Rule) : weightOfReason (reason r) = weight r.
Proof. destruct r; reflexivity. Qed.

(** A reason is listed exactly when its rule fires. *)
Lemma listed_iff_fires
  (env : Host.t) (currentTime lateTime : Z) (h : Hook) (r : Rule) :
  In (reason r) (reasons (analyzeBehavior env currentTime lateTime h)) <->
  fires env currentTime h r = true.
Proof.
  rewrite (proj1 (analyzeBehavior_rules env currentTime lateTime h)).
  rewrite in_map_iff. split.
  - intros [q [Hq Hin]]. apply reason_injective in Hq. subst q.
    now apply filter_In in Hin.
  - intros H. exists r. split; [reflexivity|].
    apply filter_In. split; [|exact H].
    destruct r; simpl; tauto.
Qed.

Lemma existsb_listed (f : Rule -> bool) (r : Rule) :
  existsb (String.eqb (reason r)) (map reason (filter f evaluationOrder)) = f r.
Proof.
  apply eq_true_iff_eq. rewrite existsb_exists. split.
  - intros [s [Hin Heq]]. apply String.eqb_eq in Heq. subst s.
    apply in_map_iff in Hin. destruct Hin as [q [Hq Hin]].
    apply reason_injective in Hq. subst q. now apply filter_In in Hin.
  - intros H. exists (reason r). split; [|apply String.eqb_refl].
    apply in_map. apply filter_In. split; [|exact H].
    destruct r; simpl; tauto.
Qed.

Lemma contribution_fires
  (env : Host.t) (currentTime lateTime : Z) (h : Hook) (r : Rule) :
  contribution r (analyzeBehavior env currentTime lateTime h) =
  if fires env currentTime h r then weight r else 0.
Proof.
  unfold contribution.
  rewrite (proj1 (analyzeBehavior_rules env currentTime lateTime h)).
  now rewrite existsb_listed.
Qed.

Lemma sum_split (f : Rule -> bool) (r : Rule) :
  Arr.sum (map weight (filter f evaluationOrder)) =
  Arr.sum
    (map (fun q => if f q then weight q else 0)
       (filter (fun q => negb (String.eqb (reason q) (reason r))) evaluationOrder))
  + (if f r then weight r else 0).
Proof.
  destruct r; cbn [evaluationOrder filter map reason String.eqb Ascii.eqb Bool.eqb negb];
    generalize (f R1), (f R2), (f R3), (f R4), (f R5), (f R6), (f R7), (f R8);
    intros [] [] [] [] [] [] [] []; reflexivity.
Qed.

(** The score is what the other rules contribute plus the weight of [r]
    when [r] fires. *)
Lemma score_split
  (env : Host.t) (currentTime lateTime : Z) (h : Hook) (r : Rule) :
  let res := analyzeBehavior env currentTime lateTime h in
  score res =
  othersContribution r res + (if fires env currentTime h r then weight r else 0).
Proof.
  intros res. unfold othersContribution.
  rewrite (map_ext _ (fun q => if fires env currentTime h q then weight q else 0))
    by (intros q; apply contribution_fires).
  unfold res. rewrite (proj2 (analyzeBehavior_rules env currentTime lateTime h)).
  apply sum_split.
Qed.

Lemma isBot_score (env : Host.t) (currentTime lateTime : Z) (h : Hook) :
  isBot (analyzeBehavior env currentTime lateTime h) =
  (50 <=? score (analyzeBehavior env currentTime lateTime h)).
Proof. reflexivity. Qed.

Lemma fires_R1_excludes_R2 (env : Host.t) (currentTime : Z) (h : Hook) :
  fires env currentTime h R1 = true -> fires env currentTime h R2 = false.
Proof. unfold fires. cbv zeta. now intros ->. Qed.

Lemma sum_zero_cons (l : list Z) : Arr.sum (0 :: l) = Arr.sum l.
Proof. reflexivity. Qed.

Lemma mapi_length {A B} (f : A -> nat -> B) (l : list A) :
  length (Arr.mapi f l) = length l.
Proof.
  unfold Arr.mapi.
  rewrite length_map, length_combine, length_seq. apply Nat.min_id.
Qed.

Lemma variations_tail (l pre : list MouseMovement.t) (a : MouseMovement.t)
  (rest : list MouseMovement.t) :
  l = (pre ++ a :: rest)%list ->
  map (fun p => variationOf l (snd p) (fst p))
    (combine (seq (S (length pre)) (length rest)) rest) =
  consecutiveDistances (a :: rest).
Proof.
  revert pre a. induction rest as [|b rest IH]; intros pre a Hl; [reflexivity|].
  change (variationOf l b (S (length pre))
          :: map (fun p => variationOf l (snd p) (fst p))
               (combine (seq (S (S (length pre))) (length rest)) rest) =
          (Z.abs (MouseMovement.x b - MouseMovement.x a) +
           Z.abs (MouseMovement.y b - MouseMovement.y a))
          :: consecutiveDistances (b :: rest)).
  f_equal.
  - unfold variationOf. cbn [Nat.eqb].
    replace (S (length pre) - 1)%nat with (length pre) by lia.
    rewrite Hl, app_nth2, Nat.sub_diag by lia. reflexivity.
  - replace (S (length pre)) with (length (pre ++ [a])%list)
      by (rewrite length_app; simpl; lia).
    apply IH. rewrite Hl, <- app_assoc. reflexivity.
Qed.

(** The array [variations] is a leading 0 followed by the distances between
    consecutive samples of the window. *)
Lemma variations_consecutive (h : Hook) :
  variations h =
  match movements h with
  | [] => []
  | _ :: _ => 0 :: consecutiveDistances (movements h)
  end.
Proof.
  unfold variations, Arr.mapi.
  destruct (movements h) as [|a rest] eqn:E; [reflexivity|].
  cbn [length seq combine map fst snd]. f_equal.
  apply (variations_tail (a :: rest) [] a rest). reflexivity.
Qed.

Lemma sliceLast_length {A} (n : nat) (l : list A) :
  length (Arr.sliceLast n l) = Nat.min n (length l).
Proof. unfold Arr.sliceLast. rewrite length_skipn. lia. Qed.

Lemma avgVariation_consecutive (h : Hook) :
  (1 <= length (mouseMovements h))%nat ->
  avgVariation h =
  Arr.over (Arr.sum (consecutiveDistances (movements h))) (length (movements h)).
Proof.
  intros Hlen. unfold avgVariation.
  assert (Hm : (1 <= length (movements h))%nat).
  { unfold movements. rewrite sliceLast_length. lia. }
  rewrite variations_consecutive.
  destruct (movements h) as [|a rest]; [simpl in Hm; lia|].
  rewrite sum_zero_cons. cbn [length].
  f_equal. clear. destruct rest as [|b rest]; [reflexivity|].
  cbn [consecutiveDistances length]. f_equal.
  revert b. induction rest as [|c rest IH]; intros b; [reflexivity|].
  cbn [consecutiveDistances length]. f_equal. apply IH.
Qed.

End ScorerFacts.

(* ================================================================== *)
(** * The typing statistics in binary64 *)
(* ================================================================== *)

Section TypingStatistics.
Import UseBotDetection Binary64.

Lemma fold_add_shift (l : list Z) (a z : Z) :
  fold_left Z.add l (a + z) = a + fold_left Z.add l z.
Proof.
  revert z. induction l as [|b l IH]; intros z; cbn [fold_left]; [reflexivity|].
  rewrite <- Z.add_assoc. apply IH.
Qed.

Lemma sum_cons (a : Z) (l : list Z) : Arr.sum (a :: l) = a + Arr.sum l.
Proof.
  unfold Arr.sum. cbn [fold_left].
  rewrite Z.add_comm. apply fold_add_shift.
Qed.

Lemma sum_below (k : Z) (l : list Z) :
  Forall (fun d => d < k) l -> Arr.sum l <= (k - 1) * Z.of_nat (length l).
Proof.
  induction 1 as [|d l Hd _ IH]; [cbn; lia|].
  rewrite sum_cons. cbn [length]. lia.
Qed.

Lemma sum_at_least (k : Z) (l : list Z) :
  Forall (fun d => k <= d) l -> k * Z.of_nat (length l) <= Arr.sum l.
Proof.
  induction 1 as [|d l Hd _ IH]; [cbn; lia|].
  rewrite sum_cons. cbn [length]. lia.
Qed.

Lemma In_upto (k : nat) (a z : Z) :
  In z (upto k a) <-> a <= z < a + Z.of_nat k.
Proof.
  revert a. induction k as [|k IH]; intros a.
  - cbn. lia.
  - cbn [upto In]. rewrite IH. lia.
Qed.

(** Checked by evaluation: [meanAgrees] for every length from 1 to 20 and
    every sum from 1 to 19980. *)
Lemma means_agree :
  forallb (fun n => forallb (meanAgrees n) (upto (Z.to_nat 19980) 1)) (upto 20 1)
  = true.
Proof. vm_compute. reflexivity. Qed.

(** Checked by evaluation: [cadenceIsFlat] for every length from 1 to 20
    and every delta from 1 to 999. *)
Lemma cadences_are_flat :
  forallb (fun n => forallb (cadenceIsFlat n) (upto (Z.to_nat 999) 1)) (upto 20 1)
  = true.
Proof. vm_compute. reflexivity. Qed.

Lemma meanAgrees_at (n s : Z) :
  1 <= n <= 20 -> 1 <= s <= 19980 -> meanAgrees n s = true.
Proof.
  intros Hn Hs.
  assert (Hin : In n (upto 20 1)) by (apply In_upto; lia).
  assert (His : In s (upto (Z.to_nat 19980) 1)) by (apply In_upto; lia).
  exact (proj1 (forallb_forall _ _)
           (proj1 (forallb_forall _ _) means_agree n Hin) s His).
Qed.

Lemma cadenceIsFlat_at (n c : Z) :
  1 <= n <= 20 -> 1 <= c <= 999 -> cadenceIsFlat n c = true.
Proof.
  intros Hn Hc.
  assert (Hin : In n (upto 20 1)) by (apply In_upto; lia).
  assert (Hic : In c (upto (Z.to_nat 999) 1)) by (apply In_upto; lia).
  exact (proj1 (forallb_forall _ _)
           (proj1 (forallb_forall _ _) cadences_are_flat n Hin) c Hic).
Qed.

(** The filtered deltas: at most 20 integers, each from 1 to 999. *)
Lemma intervals_range (h : Hook) :
  Forall (fun t => 1 <= t < 1000) (intervals h) /\
  (length (intervals h) <= 20)%nat.
Proof.
  unfold intervals. split.
  - apply Forall_forall. intros t Ht. apply filter_In in Ht.
    destruct Ht as [_ Ht]. apply andb_true_iff in Ht.
    rewrite !Z.ltb_lt in Ht. lia.
  - eapply Nat.le_trans; [apply filter_length_le|].
    rewrite length_map, sliceLast_length. lia.
Qed.

Lemma sum_range (l : list Z) :
  Forall (fun t => 1 <= t < 1000) l ->
  Z.of_nat (length l) <= Arr.sum l <= 999 * Z.of_nat (length l).
Proof.
  intros H. split.
  - pose proof (sum_at_least 1 l) as Hlow. rewrite Z.mul_1_l in Hlow.
    apply Hlow. eapply Forall_impl; [|exact H]. cbn. lia.
  - apply (sum_below 1000 l). eapply Forall_impl; [|exact H]. cbn. lia.
Qed.

(** The binary64 mean of the filtered deltas is below 50 exactly when
    their sum is below 50 times their number. *)
Lemma mean_below_fifty (h : Hook) :
  intervals h <> [] ->
  PrimFloat.ltb (avgInterval h) 50 =
  (Arr.sum (intervals h) <? 50 * Z.of_nat (length (intervals h))).
Proof.
  intros Hne. destruct (intervals_range h) as [Hrange Hlen].
  pose proof (sum_range _ Hrange) as Hsum.
  assert (Hpos : (0 < length (intervals h))%nat)
    by (destruct (intervals h); [congruence | cbn; lia]).
  unfold avgInterval. apply eqb_prop.
  apply (meanAgrees_at (Z.of_nat (length (intervals h))) (Arr.sum (intervals h)));
    lia.
Qed.

Lemma variance_of_intervals (h : Hook) :
  variance h = varianceOf (intervals h).
Proof. reflexivity. Qed.

Lemma constant_list (c : Z) (l : list Z) :
  Forall (fun t => t = c) l -> l = repeat c (length l).
Proof.
  induction 1 as [|t l Ht _ IH]; [reflexivity|].
  cbn [length repeat]. now rewrite <- IH, Ht.
Qed.

(** The binary64 variance of equal filtered deltas is zero. *)
Lemma variance_of_constant (h : Hook) (c : Z) :
  intervals h <> [] ->
  Forall (fun t => t = c) (intervals h) ->
  PrimFloat.eqb (variance h) 0 = true /\ PrimFloat.ltb (variance h) 100 = true.
Proof.
  intros Hne Hsame. destruct (intervals_range h) as [Hrange Hlen].
  rewrite variance_of_intervals.
  assert (Hc : 1 <= c < 1000).
  { destruct (intervals h) as [|t l]; [congruence|].
    inversion Hrange; inversion Hsame; subst. assumption. }
  assert (Hpos : (0 < length (intervals h))%nat)
    by (destruct (intervals h); [congruence | cbn; lia]).
  rewrite (constant_list c _ Hsame).
  pose proof (cadenceIsFlat_at (Z.of_nat (length (intervals h))) c) as H.
  unfold cadenceIsFlat in H. rewrite Nat2Z.id in H.
  apply andb_true_iff. apply H; lia.
Qed.

End TypingStatistics.

(** Abstracts the outcome of every rule in a goal about the table. *)
Ltac rule_cases env currentTime h :=
  generalize (Rules.fires env currentTime h Rules.R1),
    (Rules.fires env currentTime h Rules.R2),
    (Rules.fires env currentTime h Rules.R3),
    (Rules.fires env currentTime h Rules.R4),
    (Rules.fires env currentTime h Rules.R5),
    (Rules.fires env currentTime h Rules.R6),
    (Rules.fires env currentTime h Rules.R7),
    (Rules.fires env currentTime h Rules.R8).

Section ScorerClaims.
Import Types UseBotDetection Rules Scenarios.
Local Open Scope string_scope.

(** C10 (score and reasons agree).  The score of every result of
    [analyzeBehavior] is the sum of the weights of the rules whose reasons
    are listed; the listed reasons follow the evaluation order R1..R8
    without repetition, never hold both the R1 and the R2 reason, and the
    score lies between 0 and 180. *)
Theorem score_is_sum_of_listed_weights
  (env : Host.t) (currentTime lateTime : Z) (h : Hook) :
  let res := analyzeBehavior env currentTime lateTime h in
  score res = Arr.sum (map weightOfReason (reasons res)) /\
  Subsequence (reasons res) (map reason evaluationOrder) /\
  NoDup (reasons res) /\
  ~ (In "No natural mouse movement detected" (reasons res) /\
     In "Unnatural mouse movement patterns" (reasons res)) /\
  0 <= score res <= 180.
Proof.
  intros res. unfold res.
  destruct (analyzeBehavior_rules env currentTime lateTime h) as [Hr Hs].
  repeat apply conj.
  - rewrite Hs, Hr, map_map. f_equal. apply map_ext.
    intros r. symmetry. apply weightOfReason_reason.
  - rewrite Hr. apply Subsequence_filter_map.
  - apply (Subsequence_NoDup _ (map reason evaluationOrder)).
    + rewrite Hr. apply Subsequence_filter_map.
    + apply reasons_NoDup.
  - change (~ (In (reason R1) (reasons (analyzeBehavior env currentTime lateTime h)) /\
               In (reason R2) (reasons (analyzeBehavior env currentTime lateTime h)))).
    rewrite !listed_iff_fires. intros [H1 H2].
    rewrite (fires_R1_excludes_R2 _ _ _ H1) in H2. discriminate H2.
  - rewrite Hs. unfold evaluationOrder. cbn [filter].
    destruct (fires env currentTime h R1) eqn:E1.
    + rewrite (fires_R1_excludes_R2 _ _ _ E1).
      rule_cases env currentTime h. intros _ _ [] [] [] [] [] []; cbn; lia.
    + rule_cases env currentTime h. intros _ [] [] [] [] [] [] []; cbn; lia.
  - rewrite Hs. unfold evaluationOrder. cbn [filter].
    destruct (fires env currentTime h R1) eqn:E1.
    + rewrite (fires_R1_excludes_R2 _ _ _ E1).
      rule_cases env currentTime h. intros _ _ [] [] [] [] [] []; cbn; lia.
    + rule_cases env currentTime h. intros _ [] [] [] [] [] [] []; cbn; lia.
Qed.

Lemma typingGate_iff (h : Hook) :
  (10 <? length (typingPatterns h))%nat && (5 <? length (intervals h))%nat = true <->
  (10 < length (typingPatterns h))%nat /\ (5 < length (intervals h))%nat.
Proof. now rewrite andb_true_iff, !Nat.ltb_lt. Qed.

(** C5 as stated fails: ten key presses 30 ms apart give nine deltas of
    30 ms (mean 30, variance 0), and neither typing rule is scored. *)
Lemma ten_key_samples_are_not_scored :
  let h := session mountTime (keysEvery (mountTime + 100) 30 10) in
  let res := analyzeBehavior desktop (mountTime + 5000) (mountTime + 5000) h in
  length (typingPatterns h) = 10%nat /\
  intervals h = [30; 30; 30; 30; 30; 30; 30; 30; 30] /\
  avgInterval h = 30%float /\
  variance h = 0%float /\
  ~ In "Unnaturally consistent typing pattern" (reasons res) /\
  ~ In "Superhuman typing speed detected" (reasons res).
Proof.
  repeat apply conj; try (vm_compute; reflexivity).
  - vm_compute. intuition discriminate.
  - vm_compute. intuition discriminate.
Qed.

(** C5 (amended).  The two typing rules are evaluated exactly for the
    snapshots with more than 10 key samples whose deltas, taken from the
    last 20 samples of the key buffer, leave more than 5 values strictly
    between 0 and 1000 ms: the R3 reason is listed iff moreover the
    variance of those values, as computed in binary64, is below 100, the R4
    reason iff moreover their mean is below 50, that is their sum below 50
    times their number. *)
Theorem typing_rules_need_more_than_ten_samples
  (env : Host.t) (currentTime lateTime : Z) (h : Hook) :
  let res := analyzeBehavior env currentTime lateTime h in
  let deltas :=
    filter (fun t : Z => ((0 <? t) && (t <? 1000))%Z)
      (map TypingPattern.timeSinceLastKey
         (skipn (length (typingPatterns h) - 20) (typingPatterns h))) in
  let count := Arr.toDouble (Z.of_nat (length deltas)) in
  let mean := PrimFloat.div (Arr.toDouble (fold_left Z.add deltas 0)) count in
  intervals h = deltas /\
  avgInterval h = mean /\
  variance h =
    PrimFloat.div
      (fold_left
         (fun acc t =>
            PrimFloat.add acc
              (PrimFloat.mul (PrimFloat.sub (Arr.toDouble t) mean)
                 (PrimFloat.sub (Arr.toDouble t) mean)))
         deltas 0%float)
      count /\
  (In "Unnaturally consistent typing pattern" (reasons res) <->
   (10 < length (typingPatterns h))%nat /\ (5 < length deltas)%nat /\
   PrimFloat.ltb (variance h) 100 = true) /\
  (In "Superhuman typing speed detected" (reasons res) <->
   (10 < length (typingPatterns h))%nat /\ (5 < length deltas)%nat /\
   fold_left Z.add deltas 0 < 50 * Z.of_nat (length deltas)).
Proof.
  intros res deltas count mean. unfold res.
  change deltas with (intervals h). change mean with (avgInterval h).
  split; [reflexivity|]. split; [reflexivity|]. split; [reflexivity|]. split.
  - change "Unnaturally consistent typing pattern" with (reason R3).
    rewrite listed_iff_fires. unfold fires. cbv zeta.
    rewrite andb_true_iff, typingGate_iff. tauto.
  - change "Superhuman typing speed detected" with (reason R4).
    rewrite listed_iff_fires. unfold fires. cbv zeta.
    rewrite andb_true_iff, typingGate_iff.
    change (fold_left Z.add (intervals h) 0) with (Arr.sum (intervals h)).
    split.
    + intros [[Hkeys Hdeltas] Hmean]. rewrite mean_below_fifty in Hmean
        by (destruct (intervals h); [cbn in Hdeltas; lia | discriminate]).
      apply Z.ltb_lt in Hmean. tauto.
    + intros (Hkeys & Hdeltas & Hsum). split; [tauto|].
      rewrite mean_below_fifty
        by (destruct (intervals h); [cbn in Hdeltas; lia | discriminate]).
      apply Z.ltb_lt. exact Hsum.
Qed.

(** Rounding decides: eleven key presses whose filtered deltas are 107,
    108, 86, 86, 87, 98, 103, 103 and 80 ms have a variance of exactly 100
    over the rationals; the binary64 computation of the program stays just
    below 100 and the R3 reason is listed. *)
Example rounded_variance_lists_R3 :
  let h :=
    session mountTime
      (keysAfter (mountTime + 100)
         [1000; 107; 108; 86; 86; 87; 98; 103; 103; 80]) in
  let res := analyzeBehavior desktop (mountTime + 5000) (mountTime + 5000) h in
  intervals h = [107; 108; 86; 86; 87; 98; 103; 103; 80] /\
  PrimFloat.ltb (variance h) 100 = true /\
  In "Unnaturally consistent typing pattern" (reasons res).
Proof.
  repeat apply conj; try (vm_compute; reflexivity).
  vm_compute. tauto.
Qed.

(** C6 as stated fails: five samples 6 px apart have consecutive distances
    6, 6, 6, 6, whose average is 6, and the R2 reason is listed all the same
    (the code divides their sum, 24, by the 5 samples). *)
Lemma six_pixel_steps_are_flagged :
  let h := session mountTime (mouseLine 6 5) in
  let res := analyzeBehavior desktop (mountTime + 5000) (mountTime + 5000) h in
  hasMouseMovement h = true /\
  length (mouseMovements h) = 5%nat /\
  consecutiveDistances (movements h) = [6; 6; 6; 6] /\
  (averageConsecutiveDistance (movements h) == 6)%Q /\
  ~ (averageConsecutiveDistance (movements h) < 5)%Q /\
  In "Unnatural mouse movement patterns" (reasons res).
Proof.
  repeat apply conj; try (vm_compute; reflexivity).
  - vm_compute. discriminate.
  - vm_compute. tauto.
Qed.

(** C6 (amended).  When R1 does not fire, the R2 reason is listed, and 20
    is added, exactly when the sum of the consecutive Manhattan distances
    over the most recent at-most-20 samples, divided by the number of those
    samples, is below 5. *)
Theorem unnatural_mouse_rule
  (env : Host.t) (currentTime lateTime : Z) (h : Hook) :
  hasMouseMovement h = true ->
  (5 <= length (mouseMovements h))%nat ->
  let res := analyzeBehavior env currentTime lateTime h in
  avgVariation h =
    Arr.over (Arr.sum (consecutiveDistances (movements h))) (length (movements h)) /\
  movements h = Arr.sliceLast 20 (mouseMovements h) /\
  ~ In "No natural mouse movement detected" (reasons res) /\
  (In "Unnatural mouse movement patterns" (reasons res) <->
   (avgVariation h < 5)%Q) /\
  score res =
    othersContribution R2 res + (if Arr.Qltb (avgVariation h) 5 then 20 else 0).
Proof.
  intros Hmoved Hlen res. unfold res.
  assert (Hno : negb (hasMouseMovement h) || (length (mouseMovements h) <? 5)%nat = false).
  { rewrite Hmoved. simpl. apply Nat.ltb_ge. exact Hlen. }
  split; [|split; [|split; [|split]]].
  - apply avgVariation_consecutive. lia.
  - reflexivity.
  - change "No natural mouse movement detected" with (reason R1).
    rewrite listed_iff_fires. unfold fires. cbv zeta. rewrite Hno. discriminate.
  - change "Unnatural mouse movement patterns" with (reason R2).
    rewrite listed_iff_fires. unfold fires. cbv zeta. rewrite Hno. simpl.
    apply Qltb_lt.
  - rewrite (score_split env currentTime lateTime h R2).
    unfold fires. cbv zeta. rewrite Hno. reflexivity.
Qed.

Lemma unnatural_mouse_rule_witness :
  let h := session mountTime (mouseLine 6 5) in
  let res := analyzeBehavior desktop (mountTime + 5000) (mountTime + 5000) h in
  (avgVariation h == 24 # 5)%Q /\
  In "Unnatural mouse movement patterns" (reasons res) /\
  score res = othersContribution R2 res + 20.
Proof.
  intros h res.
  destruct (unnatural_mouse_rule desktop (mountTime + 5000) (mountTime + 5000) h)
    as (_ & _ & _ & Hlisted & Hscore).
  - vm_compute. reflexivity.
  - vm_compute. lia.
  - repeat apply conj.
    + vm_compute. reflexivity.
    + apply Hlisted. vm_compute. reflexivity.
    + exact Hscore.
Defined.

Lemma over_lt (s : Z) (n : nat) (k : Z) :
  (0 < n)%nat -> (Arr.over s n < inject_Z k)%Q <-> s < k * Z.of_nat n.
Proof.
  intros Hn. unfold Arr.over.
  assert (Hpos : (0 < inject_Z (Z.of_nat n))%Q).
  { change 0%Q with (inject_Z 0). rewrite <- Zlt_Qlt. lia. }
  split.
  - intros H. apply (Qmult_lt_r _ _ _ Hpos) in H.
    unfold Qdiv in H. rewrite <- Qmult_assoc, (Qmult_comm (/ _)), Qmult_inv_r, Qmult_1_r in H
      by (intros E; rewrite E in Hpos; discriminate Hpos).
    rewrite <- inject_Z_mult, <- Zlt_Qlt in H. exact H.
  - intros H. apply Qlt_shift_div_r; [exact Hpos|].
    rewrite <- inject_Z_mult, <- Zlt_Qlt. exact H.
Qed.

(** C7 as stated fails: ten key presses 30 ms apart meet the precondition
    the specification gives for R3 and R4 (at least 10 key samples, at
    least 6 filtered deltas) and their mean delta is 30 ms, below 50, yet
    "Superhuman typing speed detected" is not listed and nothing is added
    for it. *)
Lemma ten_fast_keys_are_not_superhuman :
  let h := session mountTime (keysEvery (mountTime + 100) 30 10) in
  let res := analyzeBehavior desktop (mountTime + 5000) (mountTime + 5000) h in
  (10 <= length (typingPatterns h))%nat /\
  (6 <= length (intervals h))%nat /\
  Arr.sum (intervals h) = 30 * Z.of_nat (length (intervals h)) /\
  ~ In "Superhuman typing speed detected" (reasons res) /\
  contribution R4 res = 0.
Proof.
  repeat apply conj; try (vm_compute; reflexivity).
  - vm_compute. lia.
  - vm_compute. intuition discriminate.
Qed.

(** C7 (amended).  For every snapshot with more than 10 key samples whose
    deltas, taken from the last 20 samples of the key buffer, leave more
    than 5 values strictly between 0 and 1000 ms, the R4 reason is listed,
    and 20 is added, exactly when the mean of those values is below 50 ms,
    that is when their sum is below 50 times their number; a mean of
    exactly 50 ms does not list it. *)
Theorem superhuman_typing_rule
  (env : Host.t) (currentTime lateTime : Z) (h : Hook) :
  let deltas :=
    filter (fun t : Z => ((0 <? t) && (t <? 1000))%Z)
      (map TypingPattern.timeSinceLastKey
         (skipn (length (typingPatterns h) - 20) (typingPatterns h))) in
  (10 < length (typingPatterns h))%nat ->
  (5 < length deltas)%nat ->
  let res := analyzeBehavior env currentTime lateTime h in
  let listed := In "Superhuman typing speed detected" (reasons res) in
  intervals h = deltas /\
  avgInterval h =
    PrimFloat.div (Arr.toDouble (fold_left Z.add deltas 0))
      (Arr.toDouble (Z.of_nat (length deltas))) /\
  (listed <-> PrimFloat.ltb (avgInterval h) 50 = true) /\
  (listed <-> fold_left Z.add deltas 0 < 50 * Z.of_nat (length deltas)) /\
  (fold_left Z.add deltas 0 = 50 * Z.of_nat (length deltas) -> ~ listed) /\
  score res =
    othersContribution R4 res +
    (if fold_left Z.add deltas 0 <? 50 * Z.of_nat (length deltas)
     then 20 else 0)%Z.
Proof.
  intros deltas Hkeys Hdeltas res listed. unfold listed, res.
  change deltas with (intervals h) in *.
  change (fold_left Z.add (intervals h) 0) with (Arr.sum (intervals h)).
  assert (Hgate : (10 <? length (typingPatterns h))%nat
                  && (5 <? length (intervals h))%nat = true).
  { apply typingGate_iff. now split. }
  assert (Hmean : PrimFloat.ltb (avgInterval h) 50 =
                  (Arr.sum (intervals h) <? 50 * Z.of_nat (length (intervals h)))%Z).
  { apply mean_below_fifty.
    destruct (intervals h); [cbn in Hdeltas; lia | discriminate]. }
  assert (Hlisted : In "Superhuman typing speed detected"
                      (reasons (analyzeBehavior env currentTime lateTime h)) <->
                    PrimFloat.ltb (avgInterval h) 50 = true).
  { change "Superhuman typing speed detected" with (reason R4).
    rewrite listed_iff_fires. unfold fires. cbv zeta. rewrite Hgate.
    reflexivity. }
  split; [reflexivity|]. split; [reflexivity|]. split; [exact Hlisted|].
  split; [|split].
  - rewrite Hlisted, Hmean. apply Z.ltb_lt.
  - intros Heq Hin. apply Hlisted in Hin. rewrite Hmean in Hin.
    apply Z.ltb_lt in Hin. lia.
  - rewrite (score_split env currentTime lateTime h R4).
    unfold fires. cbv zeta. rewrite Hgate, Hmean. reflexivity.
Qed.

(** Twenty key presses exactly 50 ms apart: the mean is 50 and R4 stays
    silent. *)
Lemma superhuman_typing_rule_witness :
  let h := session mountTime (keysEvery (mountTime + 3000) 50 20) in
  let res := analyzeBehavior desktop (mountTime + 5000) (mountTime + 5000) h in
  avgInterval h = 50%float /\
  ~ In "Superhuman typing speed detected" (reasons res).
Proof.
  intros h res.
  destruct (superhuman_typing_rule desktop (mountTime + 5000) (mountTime + 5000) h)
    as (_ & _ & _ & _ & Hexact & _).
  - vm_compute. lia.
  - vm_compute. lia.
  - split.
    + vm_compute. reflexivity.
    + apply Hexact. vm_compute. reflexivity.
Defined.

(** C8 (scenario A).  A session without mouse samples, key samples or focus
    events, scored less than 2000 ms after its start, lists the R1, R5 and
    R6 reasons, scores at least 85 and is a bot. *)
Theorem fresh_session_is_flagged
  (env : Host.t) (currentTime lateTime : Z) (h : Hook) :
  mouseMovements h = [] ->
  typingPatterns h = [] ->
  focusEvents h = 0 ->
  currentTime - formStartTime h < 2000 ->
  let res := analyzeBehavior env currentTime lateTime h in
  In "No natural mouse movement detected" (reasons res) /\
  In "Form filled too quickly" (reasons res) /\
  In "Insufficient focus interactions" (reasons res) /\
  85 <= score res /\
  isBot res = true.
Proof.
  intros Hmouse Hkeys Hfocus Hfast res. unfold res.
  assert (H1 : fires env currentTime h R1 = true).
  { unfold fires. cbv zeta. rewrite Hmouse. apply orb_true_r. }
  assert (H5 : fires env currentTime h R5 = true).
  { unfold fires. apply Z.ltb_lt. exact Hfast. }
  assert (H6 : fires env currentTime h R6 = true).
  { unfold fires. rewrite Hfocus. reflexivity. }
  assert (Hscore : 85 <= score (analyzeBehavior env currentTime lateTime h)).
  { rewrite (proj2 (analyzeBehavior_rules env currentTime lateTime h)).
    unfold evaluationOrder. cbn [filter]. rewrite H1, H5, H6.
    rule_cases env currentTime h. intros _ [] [] [] _ _ [] []; cbn; lia. }
  repeat apply conj.
  - change "No natural mouse movement detected" with (reason R1).
    now apply listed_iff_fires.
  - change "Form filled too quickly" with (reason R5).
    now apply listed_iff_fires.
  - change "Insufficient focus interactions" with (reason R6).
    now apply listed_iff_fires.
  - exact Hscore.
  - rewrite isBot_score. apply Z.leb_le. lia.
Qed.

Lemma fresh_session_is_flagged_witness :
  let res := analyzeBehavior desktop (mountTime + 40) (mountTime + 40)
               (session mountTime []) in
  In "Form filled too quickly" (reasons res) /\ 85 <= score res /\ isBot res = true.
Proof.
  intros res.
  destruct (fresh_session_is_flagged desktop (mountTime + 40) (mountTime + 40)
              (session mountTime []))
    as (_ & H5 & _ & Hscore & Hbot); try reflexivity.
  repeat apply conj; assumption.
Defined.

End ScorerClaims.

(* ================================================================== *)
(** * Properties of the key-press buffer *)
(* ================================================================== *)

Section KeyBuffer.
Import UseBotDetection Scenarios.

Lemma tl_skipn_push {A} (k : nat) (l : list A) (x : A) :
  (k <= length l)%nat -> tl (skipn k l ++ [x]) = skipn (S k) (l ++ [x]).
Proof.
  revert k. induction l as [|a l IH]; intros [|k] Hk; cbn in Hk; try lia.
  - reflexivity.
  - reflexivity.
  - cbn [skipn app]. rewrite IH by lia. reflexivity.
Qed.

(** Pushing onto the last [n] elements and shifting when that makes more
    than [n] keeps the last [n] elements. *)
Lemma push_shift_sliceLast {A} (n : nat) (l : list A) (x : A) :
  (let pushed := Arr.push (Arr.sliceLast n l) x in
   if (n <? length pushed)%nat then Arr.shift pushed else pushed) =
  Arr.sliceLast n (Arr.push l x).
Proof.
  cbv zeta. unfold Arr.push, Arr.shift, Arr.sliceLast.
  rewrite !length_app, length_skipn. cbn [length].
  destruct (Nat.le_gt_cases n (length l)) as [Hge|Hlt].
  - assert (E : (n <? length l - (length l - n) + 1)%nat = true)
      by (apply Nat.ltb_lt; lia).
    rewrite E.
    replace (length l + 1 - n)%nat with (S (length l - n)) by lia.
    apply tl_skipn_push. lia.
  - assert (E : (n <? length l - (length l - n) + 1)%nat = false)
      by (apply Nat.ltb_ge; lia).
    rewrite E.
    replace (length l - n)%nat with 0%nat by lia.
    replace (length l + 1 - n)%nat with 0%nat by lia.
    reflexivity.
Qed.

Lemma keyEvents_app (xs ys : list Input) :
  keyEvents (xs ++ ys) = (keyEvents xs ++ keyEvents ys)%list.
Proof.
  induction xs as [|[e now|e now|] xs IH]; cbn [app keyEvents]; try exact IH.
  - reflexivity.
  - now rewrite IH.
Qed.

Lemma sampleOf_app_old (keys : list (KeyboardEvent * Z)) (k : KeyboardEvent * Z)
  (n : nat) :
  (n < length keys)%nat -> sampleOf (keys ++ [k]) n = sampleOf keys n.
Proof.
  intros Hn. unfold sampleOf.
  rewrite (app_nth1 keys [k] _ Hn).
  destruct n as [|m]; [reflexivity|].
  rewrite (app_nth1 keys [k]) by lia. reflexivity.
Qed.

Lemma sampleOf_app_new (keys : list (KeyboardEvent * Z)) (e : KeyboardEvent)
  (now : Z) :
  sampleOf (keys ++ [(e, now)]) (length keys) =
  TypingPattern.mk (key e) now (now - latestKeyTime keys).
Proof.
  unfold sampleOf, latestKeyTime.
  rewrite app_nth2, Nat.sub_diag by lia. cbn [nth fst snd].
  destruct (length keys) as [|m] eqn:E; [reflexivity|].
  rewrite app_nth1 by lia. reflexivity.
Qed.

Lemma samplesOf_app (keys : list (KeyboardEvent * Z)) (e : KeyboardEvent) (now : Z) :
  samplesOf (keys ++ [(e, now)]) =
  Arr.push (samplesOf keys)
    (TypingPattern.mk (key e) now (now - latestKeyTime keys)).
Proof.
  unfold samplesOf, Arr.push.
  rewrite length_app. cbn [length].
  rewrite seq_app, map_app. cbn [seq map plus]. f_equal.
  - apply map_ext_in. intros n Hn. apply in_seq in Hn.
    apply sampleOf_app_old. lia.
  - now rewrite sampleOf_app_new.
Qed.

Lemma latestKeyTime_app (keys : list (KeyboardEvent * Z)) (e : KeyboardEvent)
  (now : Z) :
  latestKeyTime (keys ++ [(e, now)]) = now.
Proof.
  unfold latestKeyTime. rewrite length_app, Nat.add_comm. cbn [length plus].
  rewrite app_nth2, Nat.sub_diag by lia. reflexivity.
Qed.

(** What the two cells written by [trackKeyPress] hold after a session. *)
Lemma session_keys (start : Z) (inputs : list Input) :
  typingPatterns (session start inputs) =
    Arr.sliceLast 100 (samplesOf (keyEvents inputs)) /\
  lastKeyTime (session start inputs) = latestKeyTime (keyEvents inputs).
Proof.
  induction inputs as [|i inputs [IHp IHt]] using rev_ind.
  - split; reflexivity.
  - unfold session in *. rewrite fold_left_app, keyEvents_app.
    cbn [fold_left]. destruct i as [e now|e now|]; cbn [handle keyEvents].
    + rewrite app_nil_r. split; assumption.
    + rewrite samplesOf_app, latestKeyTime_app.
      unfold trackKeyPress. cbn [typingPatterns lastKeyTime].
      split; [|reflexivity].
      rewrite IHp, IHt. apply push_shift_sliceLast.
    + rewrite app_nil_r. split; assumption.
Qed.

(** C3 as stated fails: the only key press of a session is recorded with
    its own timestamp as delta, not with 0. *)
Lemma first_key_delta_is_its_timestamp :
  let h := session mountTime [KeyDown {| key := "a" |} (mountTime + 1500)] in
  map TypingPattern.timeSinceLastKey (typingPatterns h) = [mountTime + 1500] /\
  map TypingPattern.timeSinceLastKey (typingPatterns h) <> [0].
Proof. split; [reflexivity | discriminate]. Qed.

(** C3 (amended).  After any session the buffer holds the samples of the
    last 100 key events; the delta of the first key event of the session is
    its timestamp minus the initial [lastKeyTime] of 0, and the delta of
    every later key event is its timestamp minus the timestamp of the key
    event that arrived just before it. *)
Theorem key_deltas_follow_arrival_order (start : Z) (inputs : list Input) :
  let keys := keyEvents inputs in
  typingPatterns (session start inputs) = Arr.sliceLast 100 (samplesOf keys) /\
  forall n,
    TypingPattern.timestamp (sampleOf keys n) =
      snd (nth n keys ({| key := "" |}, 0)) /\
    TypingPattern.timeSinceLastKey (sampleOf keys n) =
      TypingPattern.timestamp (sampleOf keys n) -
      match n with
      | O => 0
      | S m => TypingPattern.timestamp (sampleOf keys m)
      end.
Proof.
  intros keys. split.
  - apply session_keys.
  - intros [|m]; split; reflexivity.
Qed.

End KeyBuffer.

(* ================================================================== *)
(** * Properties of the form's submit handler *)
(* ================================================================== *)

Section SubmitHandler.
Import Types BotProtectedForm.
Context {C : Type}.
Variable onSubmit : FormData -> BotDetectionResult -> AsyncCallback C.
Variable onBotDetected : option (BotDetectionResult -> Callback C).
Variable honeypotTriggered : bool.
Variable stats : BotDetectionStats.
Variable env : Host.t.
Variables currentTime lateTime : Z.

Opaque UseBotDetection.analyzeBehavior.

(** A verdict of "not a bot" hands the form data and the merged result to
    [onSubmit] and awaits it: a rejection is logged under the fixed tag, and
    while the promise is pending the run stays suspended with the
    submitting flag up. *)
Lemma handleSubmit_human (e : SubmitEvent) (w : World C) :
  isBot (botDetectionResult
       (UseBotDetection.analyzeBehavior env currentTime lateTime (detection w))
       honeypotTriggered stats) = false ->
  let r := onSubmit (currentTarget e) (botDetectionResult
       (UseBotDetection.analyzeBehavior env currentTime lateTime (detection w))
       honeypotTriggered stats) (caller w) in
  handleSubmit onSubmit onBotDetected honeypotTriggered stats
    env currentTime lateTime e w =
  ({| isSubmitting :=
        match snd r with Pending => true | _ => false end;
      detection :=
        fst (UseBotDetection.handleFormSubmit env currentTime lateTime (detection w));
      console :=
        match snd r with
        | Rejected err => Arr.push (console w) ("Form submission error:"%string, err)
        | _ => console w
        end;
      caller := fst r |},
   match snd r with Pending => Suspended | _ => Returned tt end).
Proof.
  intros Hhuman r. unfold r. clear r.
  unfold handleSubmit, bind, tryCatchFinally, handleFormSubmit, setIsSubmitting,
    consoleError, await, call, ret, UseBotDetection.handleFormSubmit.
  simpl in *. revert Hhuman.
  generalize (UseBotDetection.analyzeBehavior env currentTime lateTime (detection w)).
  intros br Hhuman. rewrite Hhuman. simpl.
  match goal with
  | |- context [onSubmit ?d ?r ?c] => destruct (onSubmit d r c) as [c1 [|err|]]
  end; reflexivity.
Qed.

(** A verdict of "bot" hands the merged result to [onBotDetected], if
    there is one, and never reaches [onSubmit]. *)
Lemma handleSubmit_bot (e : SubmitEvent) (w : World C) :
  let result :=
    botDetectionResult
      (UseBotDetection.analyzeBehavior env currentTime lateTime (detection w))
      honeypotTriggered stats in
  isBot result = true ->
  handleSubmit onSubmit onBotDetected honeypotTriggered stats
    env currentTime lateTime e w =
  ({| isSubmitting := false;
      detection :=
        fst (UseBotDetection.handleFormSubmit env currentTime lateTime (detection w));
      console :=
        match onBotDetected with
        | Some f =>
            match snd (f result (caller w)) with
            | Some err => Arr.push (console w) ("Form submission error:"%string, err)
            | None => console w
            end
        | None => console w
        end;
      caller :=
        match onBotDetected with
        | Some f => fst (f result (caller w))
        | None => caller w
        end |},
   Returned tt).
Proof.
  intros result Hbot. unfold result in *. clear result.
  unfold handleSubmit, bind, tryCatchFinally, handleFormSubmit, setIsSubmitting,
    consoleError, await, call, ret, UseBotDetection.handleFormSubmit.
  simpl in *. revert Hbot.
  generalize (UseBotDetection.analyzeBehavior env currentTime lateTime (detection w)).
  intros br Hbot. rewrite Hbot. simpl.
  destruct onBotDetected as [f|]; simpl; [|reflexivity].
  match goal with
  | |- context [f ?r ?c] => destruct (f r c) as [c1 [err|]]
  end; reflexivity.
Qed.

Transparent UseBotDetection.analyzeBehavior.

End SubmitHandler.

Section SubmitClaims.
Import Types BotProtectedForm.

(** C1 (merge at submission).  The result built by [handleSubmit] has
    score = behaviour score + (100 if the honeypot was triggered) and
    isBot = (score >= 50) or honeypot triggered; with the honeypot triggered
    it is a bot whatever the behaviour score, and [handleSubmit] then hands
    it to [onBotDetected] instead of calling [onSubmit]. *)
Theorem honeypot_is_dispositive
  (behaviorResult : BotDetectionResult) (honeypotTriggered : bool)
  (stats : BotDetectionStats) :
  let final := botDetectionResult behaviorResult honeypotTriggered stats in
  score final = score behaviorResult + (if honeypotTriggered then 100 else 0) /\
  isBot final = (50 <=? score final) || honeypotTriggered /\
  isBot (botDetectionResult behaviorResult true stats) = true /\
  forall (C : Type) (onSubmit : FormData -> BotDetectionResult -> AsyncCallback C)
         (f : BotDetectionResult -> Callback C)
         (env : Host.t) (currentTime lateTime : Z) (e : SubmitEvent) (w : World C),
    let result :=
      botDetectionResult
        (UseBotDetection.analyzeBehavior env currentTime lateTime (detection w))
        true stats in
    isBot result = true /\
    caller (fst (handleSubmit onSubmit (Some f) true stats
                   env currentTime lateTime e w)) =
    fst (f result (caller w)).
Proof.
  intros final. repeat split.
  - unfold botDetectionResult. cbn [isBot]. apply orb_true_r.
  - unfold botDetectionResult. cbn [isBot]. apply orb_true_r.
  - rewrite (handleSubmit_bot onSubmit (Some f) true stats env currentTime
               lateTime e w).
    + reflexivity.
    + unfold botDetectionResult. cbn [isBot]. apply orb_true_r.
Qed.

(** C9 (submission errors).  When the verdict is "not a bot" and the
    caller's submit handler fails with [err], [handleSubmit] still completes
    without an error of its own, logs [err] under the tag
    "Form submission error:", and leaves the submitting flag cleared, so the
    submit button is enabled again. *)
Theorem submit_error_is_caught_and_logged
  (C : Type) (onSubmit : FormData -> BotDetectionResult -> AsyncCallback C)
  (onBotDetected : option (BotDetectionResult -> Callback C))
  (honeypotTriggered : bool) (stats : BotDetectionStats)
  (env : Host.t) (currentTime lateTime : Z) (e : SubmitEvent) (w : World C)
  (c' : C) (err : JsError) :
  let result :=
    botDetectionResult
      (UseBotDetection.analyzeBehavior env currentTime lateTime (detection w))
      honeypotTriggered stats in
  isBot result = false ->
  onSubmit (currentTarget e) result (caller w) = (c', Rejected err) ->
  let out :=
    handleSubmit onSubmit onBotDetected honeypotTriggered stats
      env currentTime lateTime e w in
  snd out = Returned tt /\
  isSubmitting (fst out) = false /\
  buttonDisabled (fst out) = false /\
  console (fst out) = Arr.push (console w) ("Form submission error:"%string, err) /\
  caller (fst out) = c'.
Proof.
  intros result Hhuman Hfail out.
  pose proof (handleSubmit_human onSubmit onBotDetected honeypotTriggered stats
                env currentTime lateTime e w Hhuman) as Hw.
  cbv beta zeta in Hw. unfold result in Hfail. rewrite Hfail in Hw.
  cbn [fst snd] in Hw. unfold out, buttonDisabled. rewrite Hw.
  repeat split.
Qed.

(** A visitor's submission whose handler rejects with a network error. *)
Lemma submit_error_is_caught_and_logged_witness :
  let failing : FormData -> BotDetectionResult -> AsyncCallback nat :=
    fun _ _ attempts => (S attempts, Rejected {| message := "Network error" |}) in
  let noStats :=
    {| mouseMovements := 10; typingEvents := 0; focusEvents := 2;
       timeSpent := 4000 |} in
  let w :=
    {| isSubmitting := false;
       detection := UseBotDetection.session Scenarios.mountTime Scenarios.visitor;
       console := [];
       caller := 0%nat |} in
  let out :=
    handleSubmit failing None false noStats Scenarios.desktop
      (Scenarios.mountTime + 5000) (Scenarios.mountTime + 5000)
      {| currentTarget := [("email"%string, Js.lit "a@b.c")] |} w in
  snd out = Returned tt /\
  isSubmitting (fst out) = false /\
  console (fst out) =
    [("Form submission error:"%string, {| message := "Network error" |})].
Proof.
  intros failing noStats w out.
  destruct (submit_error_is_caught_and_logged nat failing None false noStats
              Scenarios.desktop (Scenarios.mountTime + 5000)
              (Scenarios.mountTime + 5000)
              {| currentTarget := [("email"%string, Js.lit "a@b.c")] |} w
              1%nat {| message := "Network error" |})
    as (Hok & Hflag & _ & Hlog & _).
  - vm_compute. reflexivity.
  - reflexivity.
  - repeat split; assumption.
Defined.

End SubmitClaims.

(* ================================================================== *)
(** * Further properties of the telemetry cells *)
(* ================================================================== *)

Section Telemetry.
Import Types UseBotDetection.

Lemma mouseSamples_app (xs ys : list Input) :
  mouseSamples (xs ++ ys) = (mouseSamples xs ++ mouseSamples ys)%list.
Proof.
  induction xs as [|[e now|e now|] xs IH]; cbn [app mouseSamples]; try exact IH.
  - reflexivity.
  - now rewrite IH.
Qed.

Lemma focusCount_app (xs ys : list Input) :
  focusCount (xs ++ ys) = (focusCount xs + focusCount ys)%nat.
Proof.
  induction xs as [|[e now|e now|] xs IH]; cbn [app focusCount]; try exact IH.
  - reflexivity.
  - now rewrite IH.
Qed.

(** The cells a session leaves behind, one by one. *)
Lemma session_cells (start : Z) (inputs : list Input) :
  let h := session start inputs in
  mouseMovements h = Arr.sliceLast 50 (mouseSamples inputs) /\
  hasMouseMovement h =
    match mouseSamples inputs with [] => false | _ :: _ => true end /\
  focusEvents h = Z.of_nat (focusCount inputs) /\
  botScore h = 0 /\ detectionReasons h = [] /\ formStartTime h = start.
Proof.
  induction inputs as [|i inputs IH] using rev_ind.
  - repeat split.
  - cbv zeta in *. destruct IH as (Hm & Hf & Hc & Hs & Hr & Ht).
    unfold session in *.
    rewrite fold_left_app, mouseSamples_app, focusCount_app.
    cbn [fold_left]. destruct i as [e now|e now|];
      cbn [handle mouseSamples focusCount].
    + unfold trackMouseMovement.
      cbn [mouseMovements hasMouseMovement focusEvents botScore
           detectionReasons formStartTime].
      rewrite Hm, Nat.add_0_r.
      split; [apply push_shift_sliceLast|].
      split; [now destruct (mouseSamples inputs)|]. tauto.
    + unfold trackKeyPress.
      cbn [mouseMovements hasMouseMovement focusEvents botScore
           detectionReasons formStartTime].
      rewrite app_nil_r, Nat.add_0_r. tauto.
    + unfold handleFieldFocus.
      cbn [mouseMovements hasMouseMovement focusEvents botScore
           detectionReasons formStartTime].
      rewrite app_nil_r, Hc. repeat split; try assumption. lia.
Qed.

Lemma samplesOf_length (keys : list (KeyboardEvent * Z)) :
  length (samplesOf keys) = length keys.
Proof. unfold samplesOf. now rewrite length_map, length_seq. Qed.

(** X1 (pointer buffer).  After any session the pointer buffer holds the
    samples of the last 50 pointer events, in arrival order, so its size is
    the number of pointer events capped at 50; [hasMouseMovement] is set
    exactly when the session had a pointer event. *)
Theorem mouse_buffer_keeps_last_fifty (start : Z) (inputs : list Input) :
  let h := session start inputs in
  mouseMovements h = Arr.sliceLast 50 (mouseSamples inputs) /\
  length (mouseMovements h) = Nat.min 50 (length (mouseSamples inputs)) /\
  (hasMouseMovement h = true <-> mouseSamples inputs <> []).
Proof.
  intros h. destruct (session_cells start inputs) as (Hm & Hf & _).
  fold h in Hm, Hf. split; [exact Hm|]. split.
  - rewrite Hm. apply sliceLast_length.
  - rewrite Hf. destruct (mouseSamples inputs); split; congruence.
Qed.

(** X2 (key buffer).  After any session the key buffer has as many samples
    as the session had key events, capped at 100, and [lastKeyTime] is the
    timestamp of the latest key event (0 when there was none). *)
Theorem key_buffer_is_capped (start : Z) (inputs : list Input) :
  let h := session start inputs in
  length (typingPatterns h) = Nat.min 100 (length (keyEvents inputs)) /\
  lastKeyTime h = latestKeyTime (keyEvents inputs).
Proof.
  intros h. destruct (session_keys start inputs) as [Hp Ht].
  fold h in Hp, Ht. split; [|exact Ht].
  rewrite Hp, sliceLast_length, samplesOf_length. reflexivity.
Qed.

(** X3 (what telemetry never touches).  Pointer, key and focus events
    count the focus events and leave the published score alone: after any
    session [focusEvents] is the number of focus events, [formStartTime] is
    still the mount time, [botScore] is 0 with no reasons, and the hook
    reports [isBot = false], whatever was observed. *)
Theorem telemetry_does_not_publish (start : Z) (inputs : list Input) :
  let h := session start inputs in
  focusEvents h = Z.of_nat (focusCount inputs) /\
  formStartTime h = start /\
  botScore h = 0 /\ detectionReasons h = [] /\ returnedIsBot h = false.
Proof.
  intros h. destruct (session_cells start inputs) as (_ & _ & Hc & Hs & Hr & Ht).
  fold h in Hc, Hs, Hr, Ht. unfold returnedIsBot. rewrite Hs.
  repeat split; assumption.
Qed.

(** Once a render has been committed after the last event, the callbacks
    see the live hook. *)
Lemma closureOver_same (h : Hook) : closureOver h h = h.
Proof. now destruct h. Qed.

(** The cells as [analyzeBehavior] reads them: the refs after all events,
    the state values after the events of the last committed render. *)
Lemma view_cells (start : Z) (shown pending : list Input) :
  let view := viewAfter start shown pending in
  mouseMovements view = Arr.sliceLast 50 (mouseSamples (shown ++ pending)) /\
  typingPatterns view =
    Arr.sliceLast 100 (samplesOf (keyEvents (shown ++ pending))) /\
  hasMouseMovement view =
    match mouseSamples shown with [] => false | _ :: _ => true end /\
  focusEvents view = Z.of_nat (focusCount shown) /\
  formStartTime view = start.
Proof.
  destruct (session_cells start shown) as (_ & Hf & Hc & _ & _ & Ht).
  destruct (session_cells start (shown ++ pending)) as (Hm & _).
  destruct (session_keys start (shown ++ pending)) as [Hp _].
  cbv zeta in *. unfold viewAfter, closureOver.
  cbn [mouseMovements typingPatterns hasMouseMovement focusEvents formStartTime].
  repeat split; assumption.
Qed.

(** X4 (reported statistics).  When [analyzeBehavior] runs after the events
    [shown] of the last committed render and the events [pending] that
    arrived since, the statistics of its result are the numbers of pointer
    and key events so far, capped at 50 and 100 (the refs are read live),
    the number of focus events up to that render (the state value of the
    closure), and the time from mount to the second clock reading;
    [honeypotTriggered] is always false. *)
Theorem stats_report_capped_counts
  (env : Host.t) (start currentTime lateTime : Z) (shown pending : list Input) :
  let res :=
    analyzeBehavior env currentTime lateTime (viewAfter start shown pending) in
  stats res =
    {| Types.mouseMovements :=
         Z.of_nat (Nat.min 50 (length (mouseSamples (shown ++ pending))));
       Types.typingEvents :=
         Z.of_nat (Nat.min 100 (length (keyEvents (shown ++ pending))));
       Types.focusEvents := Z.of_nat (focusCount shown);
       Types.timeSpent := lateTime - start |} /\
  honeypotTriggered res = false.
Proof.
  intros res. split; [|reflexivity].
  destruct (view_cells start shown pending) as (Hm & Hp & _ & Hc & Ht).
  cbv zeta in *. unfold res, analyzeBehavior. cbn [stats].
  rewrite Hm, Hp, Hc, Ht, !sliceLast_length, samplesOf_length. reflexivity.
Qed.

(** X5 (publishing a result).  [handleFormSubmit] returns the result of
    [analyzeBehavior], stores its score and reasons, so that the hook's own
    [isBot] agrees with the result's, and leaves the telemetry alone:
    analysing again at the same clock readings gives the same result. *)
Theorem handleFormSubmit_publishes
  (env : Host.t) (currentTime lateTime : Z) (h : Hook) :
  let out := handleFormSubmit env currentTime lateTime h in
  snd out = analyzeBehavior env currentTime lateTime h /\
  botScore (fst out) = score (snd out) /\
  detectionReasons (fst out) = reasons (snd out) /\
  returnedIsBot (fst out) = isBot (snd out) /\
  mouseMovements (fst out) = mouseMovements h /\
  typingPatterns (fst out) = typingPatterns h /\
  focusEvents (fst out) = focusEvents h /\
  analyzeBehavior env currentTime lateTime (fst out) = snd out.
Proof.
  intros out. repeat split.
Qed.

End Telemetry.

(* ================================================================== *)
(** * Further properties of the scoring rules *)
(* ================================================================== *)

Section MoreRules.
Import Types UseBotDetection Rules Scenarios.
Local Open Scope string_scope.

Lemma consecutiveDistances_length (ms : list MouseMovement.t) :
  length (consecutiveDistances ms) = pred (length ms).
Proof.
  induction ms as [|a [|b ms] IH]; try reflexivity.
  change (S (length (consecutiveDistances (b :: ms))) = S (length ms)).
  now rewrite IH.
Qed.

Lemma Qltb_ge (q r : Q) : Arr.Qltb q r = false <-> (r <= q)%Q.
Proof.
  unfold Arr.Qltb. rewrite negb_false_iff. apply Qle_bool_iff.
Qed.

Lemma over_ge (s : Z) (n : nat) (k : Z) :
  (0 < n)%nat -> (inject_Z k <= Arr.over s n)%Q <-> k * Z.of_nat n <= s.
Proof.
  intros Hn. pose proof (over_lt s n k Hn) as H. split.
  - intros Hle. apply Z.nlt_ge. intros Hlt. apply H in Hlt.
    exact (Qlt_not_le _ _ Hlt Hle).
  - intros Hle. apply Qnot_lt_le. intros Hlt. apply H in Hlt. lia.
Qed.

(** X6 (timing and focus rules).  "Form filled too quickly" is listed
    exactly when the first clock reading is less than 2000 ms after the
    mount time, and "Insufficient focus interactions" exactly when fewer
    than 2 focus events were counted; nothing else enters either rule. *)
Theorem timing_and_focus_rules
  (env : Host.t) (currentTime lateTime : Z) (h : Hook) :
  let res := analyzeBehavior env currentTime lateTime h in
  (In "Form filled too quickly" (reasons res) <->
   currentTime - formStartTime h < 2000) /\
  (In "Insufficient focus interactions" (reasons res) <-> focusEvents h < 2).
Proof.
  intros res. unfold res. split.
  - change "Form filled too quickly" with (reason R5).
    rewrite listed_iff_fires. apply Z.ltb_lt.
  - change "Insufficient focus interactions" with (reason R6).
    rewrite listed_iff_fires. apply Z.ltb_lt.
Qed.

(** X7 (environment rules).  "Automated browser detected" is listed
    exactly when [navigator] exists and its [webdriver] is the boolean
    true; "Headless browser indicators" exactly when [window] exists and
    its outer width or its outer height is 0 (one of them suffices).  With
    both globals undefined neither is listed. *)
Theorem environment_rules
  (env : Host.t) (currentTime lateTime : Z) (h : Hook) :
  let res := analyzeBehavior env currentTime lateTime h in
  (In "Automated browser detected" (reasons res) <->
   exists nav, Host.navigator env = Some nav /\ Host.webdriver nav = Some true) /\
  (In "Headless browser indicators" (reasons res) <->
   exists w, Host.window env = Some w /\
             (Host.outerWidth w = 0 \/ Host.outerHeight w = 0)) /\
  (Host.navigator env = None -> Host.window env = None ->
   ~ In "Automated browser detected" (reasons res) /\
   ~ In "Headless browser indicators" (reasons res)).
Proof.
  intros res. unfold res.
  assert (H7 : In "Automated browser detected"
                 (reasons (analyzeBehavior env currentTime lateTime h)) <->
               exists nav, Host.navigator env = Some nav /\
                           Host.webdriver nav = Some true).
  { change "Automated browser detected" with (reason R7).
    rewrite listed_iff_fires. unfold fires, webdriverIsTrue.
    destruct (Host.navigator env) as [nav|].
    - destruct (Host.webdriver nav) as [[|]|] eqn:E; split;
        try discriminate; try (intros _; exists nav; now split);
        intros [nav' [Hn Hw]]; injection Hn as <-; congruence.
    - split; [discriminate | intros [nav' [Hn _]]; discriminate Hn]. }
  assert (H8 : In "Headless browser indicators"
                 (reasons (analyzeBehavior env currentTime lateTime h)) <->
               exists w, Host.window env = Some w /\
                         (Host.outerWidth w = 0 \/ Host.outerHeight w = 0)).
  { change "Headless browser indicators" with (reason R8).
    rewrite listed_iff_fires. unfold fires, outerSizeIsZero.
    destruct (Host.window env) as [w|].
    - rewrite orb_true_iff, !Z.eqb_eq. split.
      + intros H. exists w. now split.
      + intros [w' [Hw H]]. injection Hw as <-. exact H.
    - split; [discriminate | intros [w' [Hw _]]; discriminate Hw]. }
  split; [exact H7|]. split; [exact H8|].
  intros Hnav Hwin. split.
  - rewrite H7. intros [nav [Hn _]]. congruence.
  - rewrite H8. intros [w [Hw _]]. congruence.
Qed.

Lemma environment_rules_witness :
  let ssr := {| Host.navigator := None; Host.window := None |} in
  let res := analyzeBehavior ssr (mountTime + 5000) (mountTime + 5000)
               (session mountTime visitor) in
  ~ In "Automated browser detected" (reasons res) /\
  ~ In "Headless browser indicators" (reasons res).
Proof.
  intros ssr res.
  destruct (environment_rules ssr (mountTime + 5000) (mountTime + 5000)
              (session mountTime visitor)) as (_ & _ & H).
  apply H; reflexivity.
Defined.

(** X8 (a visitor passes).  A snapshot with pointer movement, at least 5
    pointer samples whose steps sum to at least 5 times the number of
    samples in the window, at most 10 key samples, at least 2000 ms on the
    form, at least 2 focus events and an environment that is neither
    automated nor of zero size gets no reason, score 0 and [isBot = false]. *)
Theorem clean_snapshot_scores_zero
  (env : Host.t) (currentTime lateTime : Z) (h : Hook) :
  hasMouseMovement h = true ->
  (5 <= length (mouseMovements h))%nat ->
  5 * Z.of_nat (length (movements h)) <= Arr.sum (consecutiveDistances (movements h)) ->
  (length (typingPatterns h) <= 10)%nat ->
  2000 <= currentTime - formStartTime h ->
  2 <= focusEvents h ->
  webdriverIsTrue env = false ->
  outerSizeIsZero env = false ->
  let res := analyzeBehavior env currentTime lateTime h in
  reasons res = [] /\ score res = 0 /\ isBot res = false.
Proof.
  intros Hmoved Hlen Hsteps Hkeys Hslow Hfocus Hnav Hwin res.
  assert (Hwindow : (0 < length (movements h))%nat).
  { unfold movements. rewrite sliceLast_length. lia. }
  assert (Hnone : filter (fires env currentTime h) evaluationOrder = []).
  { unfold evaluationOrder. cbn [filter]. unfold fires. cbv zeta.
    rewrite Hmoved, Hnav, Hwin.
    replace (length (mouseMovements h) <? 5)%nat with false
      by (symmetry; apply Nat.ltb_ge; exact Hlen).
    replace (10 <? length (typingPatterns h))%nat with false
      by (symmetry; apply Nat.ltb_ge; exact Hkeys).
    replace (currentTime - formStartTime h <? 2000)%Z with false
      by (symmetry; apply Z.ltb_ge; exact Hslow).
    replace (focusEvents h <? 2)%Z with false
      by (symmetry; apply Z.ltb_ge; exact Hfocus).
    replace (Arr.Qltb (avgVariation h) 5) with false; [reflexivity|].
    symmetry. apply Qltb_ge. rewrite avgVariation_consecutive by lia.
    apply (over_ge _ _ 5 Hwindow). exact Hsteps. }
  destruct (analyzeBehavior_rules env currentTime lateTime h) as [Hr Hs].
  unfold res. rewrite isBot_score, Hr, Hs, Hnone. repeat split.
Qed.

Lemma clean_snapshot_scores_zero_witness :
  let res := analyzeBehavior desktop (mountTime + 5000) (mountTime + 5000)
               (session mountTime visitor) in
  reasons res = [] /\ score res = 0 /\ isBot res = false.
Proof.
  apply (clean_snapshot_scores_zero desktop (mountTime + 5000) (mountTime + 5000)
           (session mountTime visitor));
    try reflexivity; vm_compute; try lia; discriminate.
Defined.

(** X9 (small pointer steps).  When pointer movement was seen and at least
    5 samples are buffered, steps that are all shorter than 5 px (Manhattan
    distance) in the window of the last 20 samples always list "Unnatural
    mouse movement patterns". *)
Theorem small_steps_are_flagged
  (env : Host.t) (currentTime lateTime : Z) (h : Hook) :
  hasMouseMovement h = true ->
  (5 <= length (mouseMovements h))%nat ->
  Forall (fun d => d < 5) (consecutiveDistances (movements h)) ->
  In "Unnatural mouse movement patterns"
     (reasons (analyzeBehavior env currentTime lateTime h)).
Proof.
  intros Hmoved Hlen Hsmall.
  assert (Hwindow : (0 < length (movements h))%nat).
  { unfold movements. rewrite sliceLast_length. lia. }
  change "Unnatural mouse movement patterns" with (reason R2).
  apply listed_iff_fires. unfold fires. cbv zeta. rewrite Hmoved.
  replace (length (mouseMovements h) <? 5)%nat with false
    by (symmetry; apply Nat.ltb_ge; exact Hlen).
  cbn [negb orb andb]. apply Qltb_lt.
  rewrite avgVariation_consecutive by lia.
  apply (over_lt _ _ 5 Hwindow).
  pose proof (sum_below 5 _ Hsmall) as Hsum.
  rewrite consecutiveDistances_length in Hsum. lia.
Qed.

Lemma small_steps_are_flagged_witness :
  In "Unnatural mouse movement patterns"
     (reasons (analyzeBehavior desktop (mountTime + 5000) (mountTime + 5000)
                 (session mountTime (mouseLine 2 10)))).
Proof.
  apply small_steps_are_flagged.
  - reflexivity.
  - vm_compute. lia.
  - vm_compute. repeat constructor.
Defined.

(** X10 (fast typing).  When the typing rules are evaluated (more than 10
    key samples, more than 5 filtered deltas) and every filtered delta is
    below 50 ms, "Superhuman typing speed detected" is listed. *)
Theorem fast_typing_is_flagged
  (env : Host.t) (currentTime lateTime : Z) (h : Hook) :
  (10 < length (typingPatterns h))%nat ->
  (5 < length (intervals h))%nat ->
  Forall (fun t => t < 50) (intervals h) ->
  In "Superhuman typing speed detected"
     (reasons (analyzeBehavior env currentTime lateTime h)).
Proof.
  intros Hkeys Hdeltas Hfast.
  change "Superhuman typing speed detected" with (reason R4).
  apply listed_iff_fires. unfold fires. cbv zeta.
  rewrite (proj2 (typingGate_iff h) (conj Hkeys Hdeltas)).
  cbn [andb]. rewrite mean_below_fifty
    by (destruct (intervals h); [cbn in Hdeltas; lia | discriminate]).
  apply Z.ltb_lt. pose proof (sum_below 50 _ Hfast). lia.
Qed.

Lemma fast_typing_is_flagged_witness :
  In "Superhuman typing speed detected"
     (reasons (analyzeBehavior desktop (mountTime + 5000) (mountTime + 5000)
                 (session mountTime (keysEvery (mountTime + 3000) 30 20)))).
Proof.
  apply fast_typing_is_flagged.
  - vm_compute. lia.
  - vm_compute. lia.
  - vm_compute. repeat constructor.
Defined.

(** X11 (metronome typing).  When the typing rules are evaluated and all
    filtered deltas are equal, their variance, as computed in binary64, is
    0 and "Unnaturally consistent typing pattern" is listed, whatever the
    common delta is. *)
Theorem constant_cadence_is_flagged
  (env : Host.t) (currentTime lateTime : Z) (h : Hook) (c : Z) :
  (10 < length (typingPatterns h))%nat ->
  (5 < length (intervals h))%nat ->
  Forall (fun t => t = c) (intervals h) ->
  PrimFloat.eqb (variance h) 0 = true /\
  In "Unnaturally consistent typing pattern"
     (reasons (analyzeBehavior env currentTime lateTime h)).
Proof.
  intros Hkeys Hdeltas Hsame.
  assert (Hne : intervals h <> [])
    by (destruct (intervals h); [cbn in Hdeltas; lia | discriminate]).
  destruct (variance_of_constant h c Hne Hsame) as [Hzero Hbelow].
  split; [exact Hzero|].
  change "Unnaturally consistent typing pattern" with (reason R3).
  apply listed_iff_fires. unfold fires. cbv zeta.
  rewrite (proj2 (typingGate_iff h) (conj Hkeys Hdeltas)).
  cbn [andb]. exact Hbelow.
Qed.

Lemma constant_cadence_is_flagged_witness :
  In "Unnaturally consistent typing pattern"
     (reasons (analyzeBehavior desktop (mountTime + 5000) (mountTime + 5000)
                 (session mountTime (keysEvery (mountTime + 3000) 50 20)))).
Proof.
  apply (constant_cadence_is_flagged desktop (mountTime + 5000) (mountTime + 5000)
           (session mountTime (keysEvery (mountTime + 3000) 50 20)) 50).
  - vm_compute. lia.
  - vm_compute. lia.
  - vm_compute. repeat constructor.
Defined.

End MoreRules.

(* ================================================================== *)
(** * Further properties of the honeypot *)
(* ================================================================== *)

Section MoreHoneypot.
Import Js Honeypot UseHoneypot.

Lemma trimStart_nil (s : jsstring) :
  trimStart s = [] <-> Forall (fun c => isWhiteSpace c = true) s.
Proof.
  split; [|apply trimStart_blank].
  induction s as [|c s IH]; [constructor|].
  cbn [trimStart]. destruct (isWhiteSpace c) eqn:Hc; [|discriminate].
  intros H. constructor; [exact Hc | exact (IH H)].
Qed.

Lemma trimStart_head (s : jsstring) (c : N) (rest : jsstring) :
  trimStart s = c :: rest -> isWhiteSpace c = false.
Proof.
  induction s as [|d s IH]; [discriminate|].
  cbn [trimStart]. destruct (isWhiteSpace d) eqn:Hd; [exact IH|].
  intros H. injection H as <- _. exact Hd.
Qed.

Lemma trim_nil (s : jsstring) :
  trim s = [] <-> Forall (fun c => isWhiteSpace c = true) s.
Proof.
  split.
  - unfold trim, trimEnd. intros H.
    apply (f_equal (@rev N)) in H. rewrite rev_involutive in H. cbn [rev] in H.
    apply trimStart_nil in H. apply Forall_rev in H. rewrite rev_involutive in H.
    apply trimStart_nil. destruct (trimStart s) as [|c rest] eqn:E; [reflexivity|].
    apply trimStart_head in E. inversion H; congruence.
  - intros H. unfold trim, trimEnd. now rewrite (trimStart_blank s H).
Qed.

Lemma blank_or_visible (s : jsstring) :
  Forall (fun c => isWhiteSpace c = true) s \/
  Exists (fun c => isWhiteSpace c = false) s.
Proof.
  induction s as [|c s [IH|IH]].
  - left. constructor.
  - destruct (isWhiteSpace c) eqn:Hc.
    + left. now constructor.
    + right. now constructor.
  - right. now apply Exists_cons_tl.
Qed.

(** X12 (what counts as a fill).  A change event triggers an un-latched
    trap exactly when its value holds at least one code unit that is not
    white space; the empty value and every whitespace-only value leave the
    trap un-latched and the owner untouched. *)
Theorem fill_needs_a_visible_character
  (W : Type) (f : W -> W) (e : ChangeEvent) (w : W) :
  (isFill e = true <-> Exists (fun c => isWhiteSpace c = false) (value e)) /\
  (Exists (fun c => isWhiteSpace c = false) (value e) ->
   handleFieldChange f e (mount w) = {| hasTriggered := true; owner := f w |}) /\
  (whitespaceOnly (value e) -> handleFieldChange f e (mount w) = mount w).
Proof.
  assert (Hfill : isFill e = true <->
                  Exists (fun c => isWhiteSpace c = false) (value e)).
  { unfold isFill. split.
    - intros H. destruct (blank_or_visible (value e)) as [Hall|Hex]; [|exact Hex].
      apply trim_nil in Hall. rewrite Hall in H. discriminate H.
    - intros Hex. destruct (trim (value e)) as [|c rest] eqn:E; [|reflexivity].
      apply trim_nil in E. apply Exists_exists in Hex.
      destruct Hex as [c [Hin Hc]].
      rewrite Forall_forall in E. specialize (E c Hin). congruence. }
  split; [exact Hfill|]. split.
  - intros Hex. apply handleFieldChange_fill; [|reflexivity].
    apply Hfill. exact Hex.
  - intros Hblank. unfold handleFieldChange.
    rewrite (trim_blank _ Hblank). reflexivity.
Qed.

Lemma fill_needs_a_visible_character_witness :
  handleFieldChange spy
    {| fieldName := "hp_fax_number"; value := lit "  x " |} (mount 0%nat) =
    {| hasTriggered := true; owner := 1%nat |} /\
  handleFieldChange spy
    {| fieldName := "hp_fax_number"; value := [9; 160; 8232; 65279]%N |}
    (mount 0%nat) = mount 0%nat.
Proof.
  split.
  - apply (fill_needs_a_visible_character Spy spy
             {| fieldName := "hp_fax_number"; value := lit "  x " |} 0%nat).
    vm_compute. right. right. left. reflexivity.
  - apply (fill_needs_a_visible_character Spy spy
             {| fieldName := "hp_fax_number";
                value := [9; 160; 8232; 65279]%N |} 0%nat).
    repeat constructor.
Defined.

(** X13 (the latch).  For any owner and callback, and from any state of
    the instance: after a list of change events the latch is set iff it was
    set before or one of the events is a fill, and the callback has run on
    the owner once if the latch was open and a fill arrived, not at all
    otherwise.  The names of the fields play no part. *)
Theorem latch_after_changes
  (W : Type) (f : W -> W) (es : list ChangeEvent) (i : Instance W) :
  hasTriggered (changes f es i) = hasTriggered i || existsb isFill es /\
  owner (changes f es i) =
    (if negb (hasTriggered i) && existsb isFill es then f (owner i) else owner i) /\
  changes f (map (fun e => {| fieldName := ""; value := value e |}) es) i =
    changes f es i.
Proof.
  revert i. induction es as [|e es IH]; intros i.
  - cbn. rewrite orb_false_r, andb_false_r. repeat split.
  - change (changes f (e :: es) i) with (changes f es (handleFieldChange f e i)).
    change (changes f
              (map (fun e => {| fieldName := ""; value := value e |}) (e :: es)) i)
      with (changes f
              (map (fun e => {| fieldName := ""; value := value e |}) es)
              (handleFieldChange f e i)).
    destruct (IH (handleFieldChange f e i)) as (IHl & IHo & IHn).
    rewrite IHl, IHo, IHn. cbn [existsb].
    unfold handleFieldChange. fold (isFill e).
    destruct (isFill e), (hasTriggered i) eqn:Hi, (existsb isFill es);
      cbn [andb orb negb hasTriggered owner]; rewrite ?Hi; repeat split.
Qed.

(** The states the hook and its mounted component can be in. *)
Lemma run_invariant (acts : list Action) :
  let i := run acts mounted in
  (invocations (owner i) <= 1)%nat /\
  (hasTriggered i = false ->
   invocations (owner i) = 0%nat /\ hook (owner i) = initial) /\
  (hasTriggered i = true ->
   invocations (owner i) = 1%nat /\
   (hook (owner i) = initial \/
    hook (owner i) = {| isBotDetected := true; botScore := 50 |})).
Proof.
  induction acts as [|a acts IH] using rev_ind.
  - cbn. repeat split; try discriminate; lia.
  - cbv zeta in *. unfold run in *. rewrite fold_left_app. cbn [fold_left].
    destruct (fold_left step acts mounted) as [latched [hk n]].
    cbn [hasTriggered owner invocations hook] in IH.
    destruct IH as (Hn & Hopen & Hshut).
    destruct a as [e|]; cbn [step].
    + unfold handleFieldChange. cbn [hasTriggered owner].
      destruct (nonEmpty (trim (value e))), latched;
        cbn [andb negb hasTriggered owner invocations hook onBotDetected].
      * exact (conj Hn (conj Hopen Hshut)).
      * destruct (Hopen eq_refl) as [-> ->].
        repeat split; try discriminate; try lia. now right.
      * exact (conj Hn (conj Hopen Hshut)).
      * exact (conj Hn (conj Hopen Hshut)).
    + cbn [hasTriggered owner invocations hook resetDetection].
      split; [exact Hn|]. split.
      * intros H. split; [apply (Hopen H) | reflexivity].
      * intros H. split; [apply (Hshut H) | now left].
Qed.

(** X14 (hook and trap together).  Whatever fills and resets happen to a
    mounted [HoneypotComponent], the callback runs at most once, the
    hook's [botScore] is 0 or 50 and is 50 exactly when [isBotDetected] is
    set, and [isBotDetected] is only ever set with the trap latched. *)
Theorem honeypot_score_is_zero_or_fifty (acts : list Action) :
  let i := run acts mounted in
  (invocations (owner i) <= 1)%nat /\
  (botScore (hook (owner i)) = 0 \/ botScore (hook (owner i)) = 50) /\
  (isBotDetected (hook (owner i)) = true <-> botScore (hook (owner i)) = 50) /\
  (isBotDetected (hook (owner i)) = true -> hasTriggered i = true).
Proof.
  intros i. destruct (run_invariant acts) as (Hn & Hopen & Hshut).
  fold i in Hn, Hopen, Hshut. split; [exact Hn|].
  destruct (hasTriggered i).
  - destruct (Hshut eq_refl) as [_ [-> | ->]]; cbn;
      repeat split; auto; try discriminate.
  - destruct (Hopen eq_refl) as [_ ->]. cbn.
    repeat split; auto; discriminate.
Qed.

Lemma honeypot_score_is_zero_or_fifty_witness :
  let i := run [ fill "hp_website_url" "spam"; fill "hp_fax_number" "spam2" ]
             mounted in
  botScore (hook (owner i)) = 50 /\ hasTriggered i = true.
Proof.
  intros i.
  destruct (honeypot_score_is_zero_or_fifty
              [ fill "hp_website_url" "spam"; fill "hp_fax_number" "spam2" ])
    as (_ & _ & Hiff & Hlatch).
  split.
  - apply Hiff. reflexivity.
  - apply Hlatch. reflexivity.
Defined.

(** X15 (manual reports accumulate).  Each direct call of
    [handleBotDetected] adds 50: after [n] calls on a fresh hook the score
    is [50 * n], so it exceeds 50 from the second call on, and a reset
    brings any such state back to the initial one. *)
Theorem manual_reports_accumulate (n : nat) :
  botScore (Nat.iter n handleBotDetected initial) = 50 * Z.of_nat n /\
  isBotDetected (Nat.iter n handleBotDetected initial) = negb (n =? 0)%nat /\
  resetDetection (Nat.iter n handleBotDetected initial) = initial.
Proof.
  induction n as [|n (IHs & IHd & _)].
  - repeat split.
  - change (Nat.iter (S n) handleBotDetected initial)
      with (handleBotDetected (Nat.iter n handleBotDetected initial)).
    set (s := Nat.iter n handleBotDetected initial) in *.
    unfold handleBotDetected, resetDetection. cbn [botScore isBotDetected].
    rewrite IHs. repeat split. lia.
Qed.

End MoreHoneypot.

(* ================================================================== *)
(** * Further properties of the form's submit handler *)
(* ================================================================== *)

Section MoreSubmit.
Import Types BotProtectedForm.

(** X16 (when a submission settles).  [handleSubmit] completes, without an
    error of its own and with the submitting flag cleared and the button
    enabled, in every case but one: on a "not a bot" verdict whose
    [onSubmit] promise never settles it stays suspended with the submitting
    flag up and the button disabled.  A throwing [onBotDetected] and a
    rejected promise are both absorbed.  In every case the hook holds the
    behaviour score and reasons of this submission, without the honeypot's
    100. *)
Theorem submission_settles_unless_pending
  (C : Type) (onSubmit : FormData -> BotDetectionResult -> AsyncCallback C)
  (onBotDetected : option (BotDetectionResult -> Callback C))
  (honeypotTriggered : bool) (stats : BotDetectionStats)
  (env : Host.t) (currentTime lateTime : Z) (e : SubmitEvent) (w : World C) :
  let behaviour :=
    UseBotDetection.analyzeBehavior env currentTime lateTime (detection w) in
  let result := botDetectionResult behaviour honeypotTriggered stats in
  let stuck :=
    isBot result = false /\
    snd (onSubmit (currentTarget e) result (caller w)) = Pending in
  let out :=
    handleSubmit onSubmit onBotDetected honeypotTriggered stats
      env currentTime lateTime e w in
  (stuck ->
   snd out = Suspended /\ isSubmitting (fst out) = true /\
   buttonDisabled (fst out) = true) /\
  (~ stuck ->
   snd out = Returned tt /\ isSubmitting (fst out) = false /\
   buttonDisabled (fst out) = false) /\
  UseBotDetection.botScore (detection (fst out)) = score behaviour /\
  UseBotDetection.detectionReasons (detection (fst out)) = reasons behaviour.
Proof.
  intros behaviour result stuck out. unfold stuck, out, buttonDisabled.
  destruct (isBot result) eqn:Hverdict.
  - unfold result in Hverdict.
    rewrite (handleSubmit_bot onSubmit onBotDetected honeypotTriggered stats
               env currentTime lateTime e w Hverdict).
    cbn [fst snd isSubmitting detection].
    split; [|split; [|split; reflexivity]].
    + intros [Hno _]. discriminate Hno.
    + intros _. split; [|split]; reflexivity.
  - unfold result in Hverdict.
    rewrite (handleSubmit_human onSubmit onBotDetected honeypotTriggered stats
               env currentTime lateTime e w Hverdict).
    fold behaviour. fold result.
    cbn [fst snd isSubmitting detection].
    split; [|split; [|split; reflexivity]].
    + intros [_ Hp]. rewrite Hp. split; [|split]; reflexivity.
    + intros Hn.
      destruct (snd (onSubmit (currentTarget e) result (caller w)));
        try (split; [|split]; reflexivity).
      exfalso. apply Hn. split; reflexivity.
Qed.

(** A visitor's submission whose handler never answers: the button stays
    disabled. *)
Lemma submission_settles_unless_pending_witness :
  let silent : FormData -> BotDetectionResult -> AsyncCallback nat :=
    fun _ _ sent => (S sent, Pending) in
  let noStats :=
    {| mouseMovements := 10; typingEvents := 0; focusEvents := 2;
       timeSpent := 4000 |} in
  let w :=
    {| isSubmitting := false;
       detection := UseBotDetection.session Scenarios.mountTime Scenarios.visitor;
       console := [];
       caller := 0%nat |} in
  let out :=
    handleSubmit silent None false noStats Scenarios.desktop
      (Scenarios.mountTime + 5000) (Scenarios.mountTime + 5000)
      {| currentTarget := [] |} w in
  snd out = Suspended /\ buttonDisabled (fst out) = true.
Proof.
  intros silent noStats w out.
  destruct (submission_settles_unless_pending nat silent None false noStats
              Scenarios.desktop (Scenarios.mountTime + 5000)
              (Scenarios.mountTime + 5000) {| currentTarget := [] |} w)
    as (Hstuck & _).
  destruct Hstuck as (Hs & _ & Hb).
  - split; [vm_compute; reflexivity | reflexivity].
  - split; assumption.
Defined.

(** X17 (a bot is dropped).  On a "bot" verdict [onSubmit] is never
    reached: the caller's state is changed by [onBotDetected] alone, or not
    at all when that prop is absent, and the console stays as it was unless
    [onBotDetected] itself throws, which is logged under the same tag. *)
Theorem bot_verdict_skips_onSubmit
  (C : Type) (onSubmit : FormData -> BotDetectionResult -> AsyncCallback C)
  (onBotDetected : option (BotDetectionResult -> Callback C))
  (honeypotTriggered : bool) (stats : BotDetectionStats)
  (env : Host.t) (currentTime lateTime : Z) (e : SubmitEvent) (w : World C) :
  let result :=
    botDetectionResult
      (UseBotDetection.analyzeBehavior env currentTime lateTime (detection w))
      honeypotTriggered stats in
  isBot result = true ->
  let out :=
    handleSubmit onSubmit onBotDetected honeypotTriggered stats
      env currentTime lateTime e w in
  caller (fst out) =
    match onBotDetected with
    | Some f => fst (f result (caller w))
    | None => caller w
    end /\
  console (fst out) =
    match onBotDetected with
    | Some f =>
        match snd (f result (caller w)) with
        | Some err => Arr.push (console w) ("Form submission error:"%string, err)
        | None => console w
        end
    | None => console w
    end.
Proof.
  intros result Hbot out. unfold out.
  rewrite (handleSubmit_bot onSubmit onBotDetected honeypotTriggered
             stats env currentTime lateTime e w Hbot).
  split; reflexivity.
Qed.

(** A filled honeypot on an otherwise clean visit, with a bot callback
    that throws. *)
Lemma bot_verdict_skips_onSubmit_witness :
  let accept : FormData -> BotDetectionResult -> AsyncCallback nat :=
    fun _ _ sent => (S sent, Fulfilled) in
  let report : BotDetectionResult -> Callback nat :=
    fun _ sent => (sent, Some {| message := "reporting failed" |}) in
  let noStats :=
    {| mouseMovements := 10; typingEvents := 0; focusEvents := 2;
       timeSpent := 4000 |} in
  let w :=
    {| isSubmitting := false;
       detection := UseBotDetection.session Scenarios.mountTime Scenarios.visitor;
       console := [];
       caller := 0%nat |} in
  let out :=
    handleSubmit accept (Some report) true noStats Scenarios.desktop
      (Scenarios.mountTime + 5000) (Scenarios.mountTime + 5000)
      {| currentTarget := [] |} w in
  caller (fst out) = 0%nat /\
  console (fst out) =
    [("Form submission error:"%string, {| message := "reporting failed" |})].
Proof.
  intros accept report noStats w out.
  apply (bot_verdict_skips_onSubmit nat accept (Some report) true noStats
           Scenarios.desktop (Scenarios.mountTime + 5000)
           (Scenarios.mountTime + 5000) {| currentTarget := [] |} w).
  vm_compute. reflexivity.
Defined.

(** X18 (a visitor's submission goes through).  On a "not a bot" verdict
    [onSubmit] receives the submitted form data together with the merged
    result; when it completes, nothing is logged and the caller's state is
    the one the handler produced. *)
Theorem human_verdict_calls_onSubmit
  (C : Type) (onSubmit : FormData -> BotDetectionResult -> AsyncCallback C)
  (onBotDetected : option (BotDetectionResult -> Callback C))
  (honeypotTriggered : bool) (stats : BotDetectionStats)
  (env : Host.t) (currentTime lateTime : Z) (e : SubmitEvent) (w : World C)
  (c' : C) :
  let result :=
    botDetectionResult
      (UseBotDetection.analyzeBehavior env currentTime lateTime (detection w))
      honeypotTriggered stats in
  isBot result = false ->
  onSubmit (currentTarget e) result (caller w) = (c', Fulfilled) ->
  let out :=
    handleSubmit onSubmit onBotDetected honeypotTriggered stats
      env currentTime lateTime e w in
  honeypotTriggered = false /\
  caller (fst out) = c' /\
  console (fst out) = console w /\
  isSubmitting (fst out) = false.
Proof.
  intros result Hhuman Hdone out.
  pose proof (handleSubmit_human onSubmit onBotDetected honeypotTriggered stats
                env currentTime lateTime e w Hhuman) as Hw.
  cbv beta zeta in Hw. unfold result in Hdone. rewrite Hdone in Hw.
  cbn [fst snd] in Hw. unfold out. rewrite Hw.
  cbn [fst caller console isSubmitting]. repeat split.
  unfold result, botDetectionResult in Hhuman. cbn [isBot] in Hhuman.
  apply orb_false_iff in Hhuman. apply Hhuman.
Qed.

Lemma human_verdict_calls_onSubmit_witness :
  let accept : FormData -> BotDetectionResult -> AsyncCallback nat :=
    fun _ _ sent => (S sent, Fulfilled) in
  let noStats :=
    {| mouseMovements := 10; typingEvents := 0; focusEvents := 2;
       timeSpent := 4000 |} in
  let w :=
    {| isSubmitting := false;
       detection := UseBotDetection.session Scenarios.mountTime Scenarios.visitor;
       console := [];
       caller := 0%nat |} in
  let out :=
    handleSubmit accept None false noStats Scenarios.desktop
      (Scenarios.mountTime + 5000) (Scenarios.mountTime + 5000)
      {| currentTarget := [("email"%string, Js.lit "a@b.c")] |} w in
  caller (fst out) = 1%nat /\ console (fst out) = [].
Proof.
  intros accept noStats w out.
  destruct (human_verdict_calls_onSubmit nat accept None false noStats
              Scenarios.desktop (Scenarios.mountTime + 5000)
              (Scenarios.mountTime + 5000)
              {| currentTarget := [("email"%string, Js.lit "a@b.c")] |} w 1%nat)
    as (_ & Hc & Hl & _).
  - vm_compute. reflexivity.
  - reflexivity.
  - split; assumption.
Defined.

End MoreSubmit.

(* ================================================================== *)
(** * The merged result *)
(* ================================================================== *)

Section MergedResult.
Import Types UseBotDetection Rules BotProtectedForm.

Lemma behaviour_score_range (env : Host.t) (currentTime lateTime : Z) (h : Hook) :
  0 <= score (analyzeBehavior env currentTime lateTime h) <= 180.
Proof.
  rewrite (proj2 (analyzeBehavior_rules env currentTime lateTime h)).
  unfold evaluationOrder. cbn [filter].
  destruct (fires env currentTime h R1) eqn:E1.
  - rewrite (fires_R1_excludes_R2 _ _ _ E1).
    rule_cases env currentTime h. intros _ _ [] [] [] [] [] []; cbn; lia.
  - rule_cases env currentTime h. intros _ [] [] [] [] [] [] []; cbn; lia.
Qed.

Lemma behaviour_reasons_NoDup (env : Host.t) (currentTime lateTime : Z) (h : Hook) :
  NoDup (reasons (analyzeBehavior env currentTime lateTime h)).
Proof.
  apply (Subsequence_NoDup _ (map reason evaluationOrder)).
  - rewrite (proj1 (analyzeBehavior_rules env currentTime lateTime h)).
    apply Subsequence_filter_map.
  - apply reasons_NoDup.
Qed.

Lemma behaviour_never_lists_honeypot
  (env : Host.t) (currentTime lateTime : Z) (h : Hook) :
  ~ In "Honeypot field filled"%string
       (reasons (analyzeBehavior env currentTime lateTime h)).
Proof.
  rewrite (proj1 (analyzeBehavior_rules env currentTime lateTime h)).
  rewrite in_map_iff. intros [r [Hr _]]. destruct r; discriminate Hr.
Qed.

(** X19 (the merged verdict).  For a behaviour result of [analyzeBehavior]
    merged with the honeypot flag: the merged score lies between 0 and 280
    and the verdict is simply "merged score >= 50" (the honeypot's 100
    already decides it); merging never clears a behaviour verdict; the
    reasons are the behaviour reasons followed by "Honeypot field filled",
    which is listed exactly when the honeypot was triggered, and no reason
    is listed twice. *)
Theorem merged_verdict
  (env : Host.t) (currentTime lateTime : Z) (h : Hook)
  (honeypotTriggered : bool) (stats : BotDetectionStats) :
  let behaviour := analyzeBehavior env currentTime lateTime h in
  let final := botDetectionResult behaviour honeypotTriggered stats in
  0 <= score final <= 280 /\
  isBot final = (50 <=? score final) /\
  (isBot behaviour = true -> isBot final = true) /\
  (In "Honeypot field filled"%string (reasons final) <-> honeypotTriggered = true) /\
  (forall r, In r (reasons behaviour) -> In r (reasons final)) /\
  NoDup (reasons final).
Proof.
  intros behaviour final.
  pose proof (behaviour_score_range env currentTime lateTime h) as Hrange.
  pose proof (behaviour_reasons_NoDup env currentTime lateTime h) as Hnd.
  pose proof (behaviour_never_lists_honeypot env currentTime lateTime h) as Hnot.
  pose proof (isBot_score env currentTime lateTime h) as Hbot.
  fold behaviour in Hrange, Hnd, Hnot, Hbot.
  unfold final, botDetectionResult. cbn [score isBot reasons].
  destruct honeypotTriggered.
  - split; [lia|]. split.
    + rewrite orb_true_r. symmetry. apply Z.leb_le. lia.
    + split; [intros _; apply orb_true_r|]. split.
      * split; [reflexivity|]. intros _. apply in_or_app. right. now left.
      * split; [intros r Hr; apply in_or_app; now left|].
        apply NoDup_app; [exact Hnd | repeat constructor; intros [] |].
        intros r Hr [<-|[]]. exact (Hnot Hr).
  - rewrite Z.add_0_r, orb_false_r, app_nil_r. split; [lia|].
    split; [reflexivity|]. split; [now rewrite Hbot|]. split.
    + split; [intros Hin; exfalso; exact (Hnot Hin) | discriminate].
    + split; [tauto | exact Hnd].
Qed.

Lemma merged_verdict_witness :
  let behaviour :=
    analyzeBehavior Scenarios.desktop (Scenarios.mountTime + 40)
      (Scenarios.mountTime + 40) (session Scenarios.mountTime []) in
  let final :=
    botDetectionResult behaviour true
      {| Types.mouseMovements := 0; Types.typingEvents := 0;
         Types.focusEvents := 0;
         Types.timeSpent := 40 |} in
  isBot final = true /\ In "Honeypot field filled"%string (reasons final).
Proof.
  intros behaviour final.
  destruct (merged_verdict Scenarios.desktop (Scenarios.mountTime + 40)
              (Scenarios.mountTime + 40) (session Scenarios.mountTime []) true
              {| Types.mouseMovements := 0; Types.typingEvents := 0;
         Types.focusEvents := 0;
                 Types.timeSpent := 40 |})
    as (_ & _ & Hkeep & Hlisted & _).
  split.
  - apply Hkeep. reflexivity.
  - apply Hlisted. reflexivity.
Defined.

(** X20 (the mouse rule over a session).  When [analyzeBehavior] runs
    after the events [shown] of the last committed render and the events
    [pending] that arrived since, "No natural mouse movement detected" is
    listed exactly when no pointer event had arrived by that render or
    fewer than 5 pointer events have arrived in all; so with a render
    committed after the last event it is listed exactly when the session
    had fewer than 5 pointer events, and with every pointer event still
    pending it is listed however many there were. *)
Theorem mouse_rule_counts_pointer_events
  (env : Host.t) (start currentTime lateTime : Z) (shown pending : list Input) :
  let listed view :=
    In "No natural mouse movement detected"%string
       (reasons (analyzeBehavior env currentTime lateTime view)) in
  (listed (viewAfter start shown pending) <->
   mouseSamples shown = [] \/
   (length (mouseSamples (shown ++ pending)) < 5)%nat) /\
  (listed (session start shown) <-> (length (mouseSamples shown) < 5)%nat) /\
  (mouseSamples shown = [] -> listed (viewAfter start shown pending)).
Proof.
  intros listed.
  assert (H : listed (viewAfter start shown pending) <->
              mouseSamples shown = [] \/
              (length (mouseSamples (shown ++ pending)) < 5)%nat).
  { unfold listed.
    change "No natural mouse movement detected"%string with (reason R1).
    rewrite listed_iff_fires. unfold fires. cbv zeta.
    destruct (view_cells start shown pending) as (Hm & _ & Hf & _).
    cbv zeta in Hm, Hf.
    rewrite Hm, Hf, sliceLast_length, orb_true_iff, Nat.ltb_lt.
    destruct (mouseSamples shown) as [|m ms]; cbn [negb].
    - split; [now left | now left].
    - split; [intros [E|E]; [discriminate E | right; lia]
             | intros [E|E]; [discriminate E | right; lia]]. }
  split; [exact H|]. split.
  - assert (H0 : listed (viewAfter start shown []) <->
                 mouseSamples shown = [] \/
                 (length (mouseSamples (shown ++ [])) < 5)%nat).
    { unfold listed.
      change "No natural mouse movement detected"%string with (reason R1).
      rewrite listed_iff_fires. unfold fires. cbv zeta.
      destruct (view_cells start shown []) as (Hm & _ & Hf & _).
      cbv zeta in Hm, Hf.
      rewrite Hm, Hf, sliceLast_length, orb_true_iff, Nat.ltb_lt.
      destruct (mouseSamples shown) as [|m ms]; cbn [negb].
      - split; [now left | now left].
      - split; [intros [E|E]; [discriminate E | right; lia]
               | intros [E|E]; [discriminate E | right; lia]]. }
    unfold viewAfter in H0. rewrite app_nil_r, closureOver_same in H0.
    rewrite H0. split.
    + intros [E|E]; [rewrite E; cbn; lia | exact E].
    + intros E. now right.
  - intros E. apply H. now left.
Qed.

(** Ten pointer events and the call in one task, before any render: the
    buffer holds ten samples and the R1 reason is listed all the same. *)
Lemma mouse_rule_counts_pointer_events_witness :
  let view := viewAfter Scenarios.mountTime [] (Scenarios.mouseLine 50 10) in
  length (mouseMovements view) = 10%nat /\
  In "No natural mouse movement detected"%string
     (reasons (analyzeBehavior Scenarios.desktop (Scenarios.mountTime + 5000)
                 (Scenarios.mountTime + 5000) view)).
Proof.
  intros view. split; [reflexivity|].
  destruct (mouse_rule_counts_pointer_events Scenarios.desktop
              Scenarios.mountTime (Scenarios.mountTime + 5000)
              (Scenarios.mountTime + 5000) [] (Scenarios.mouseLine 50 10))
    as (_ & _ & H).
  apply H. reflexivity.
Defined.

End MergedResult.
